(** * CampusQuery front end: a shallow embedding of the application controller

    The controller is the JavaScript class [CampusQueryApp]: twelve mutable
    fields, a page (the DOM, looked up by element id on every use) and a
    handful of calls to the outside world (fetch, the PDF library, timers).
    The embedding keeps that shape:

    - JavaScript strings are sequences of UTF-16 code units, numbers are
      IEEE-754 doubles (Rocq's primitive floats), page numbers are integers;
    - the page is a finite map from element ids to elements, so that
      [getElementById] may answer [null] exactly where the code tests for it;
    - asynchronous methods are cut at their [await]s: the part that runs
      when the method is called, and one function per resumption;
    - calls that leave the page are appended to a log.
*)

From Stdlib Require Import ZArith NArith List Bool Ascii String Floats Uint63.
From stdpp Require Import gmap strings fin_maps.
Import ListNotations.

Local Open Scope string_scope.
Local Open Scope list_scope.
Local Open Scope Z_scope.

(** ** JavaScript strings *)

Module JS.

(** A string is a sequence of UTF-16 code units; [s.length] is its length. *)
Definition JSString := list N.

(** An ASCII literal of the source, as code units. *)
Fixpoint js (s : string) : JSString :=
  match s with
  | EmptyString => []
  | String a rest => N_of_ascii a :: js rest
  end.

(** WhiteSpace and LineTerminator of ECMA-262, the characters
    [String.prototype.trim] strips. *)
Definition is_white_space (c : N) : bool :=
  (N.eqb c 9 || N.eqb c 10 || N.eqb c 11 || N.eqb c 12 || N.eqb c 13
   || N.eqb c 32 || N.eqb c 160 || N.eqb c 5760
   || (N.leb 8192 c && N.leb c 8202)
   || N.eqb c 8232 || N.eqb c 8233 || N.eqb c 8239 || N.eqb c 8287
   || N.eqb c 12288 || N.eqb c 65279)%bool.

Fixpoint trimStart (s : JSString) : JSString :=
  match s with
  | c :: rest => if is_white_space c then trimStart rest else s
  | [] => []
  end.

Definition trimEnd (s : JSString) : JSString := rev (trimStart (rev s)).

(** [s.trim()] *)
Definition trim (s : JSString) : JSString := trimEnd (trimStart s).

Fixpoint code_units_eqb (s t : JSString) : bool :=
  match s, t with
  | [], [] => true
  | a :: s', b :: t' => N.eqb a b && code_units_eqb s' t'
  | _, _ => false
  end.

Fixpoint startsWith (s prefix : JSString) : bool :=
  match prefix, s with
  | [], _ => true
  | p :: prefix', c :: s' => N.eqb p c && startsWith s' prefix'
  | _ :: _, [] => false
  end.

(** [s.includes(needle)] *)
Fixpoint includes (s needle : JSString) : bool :=
  startsWith s needle ||
  match s with
  | [] => false
  | _ :: s' => includes s' needle
  end.

(** Truthiness of a string: only the empty string is falsy. *)
Definition truthy (s : JSString) : bool :=
  match s with [] => false | _ :: _ => true end.

(** [s || dflt] on strings. *)
Definition or_else (s dflt : JSString) : JSString :=
  if truthy s then s else dflt.

End JS.
Export JS.

(** ** JavaScript numbers *)

Module Num.

Local Open Scope float_scope.

(** [Math.min(a, b)]: NaN is contagious and -0 is below +0. *)
Definition Math_min (a b : float) : float :=
  if (PrimFloat.is_nan a || PrimFloat.is_nan b)%bool then nan
  else if a <? b then a
  else if b <? a then b
  else if (PrimFloat.is_zero a && PrimFloat.get_sign a)%bool then a else b.

(** [Math.max(a, b)]: NaN is contagious and +0 is above -0. *)
Definition Math_max (a b : float) : float :=
  if (PrimFloat.is_nan a || PrimFloat.is_nan b)%bool then nan
  else if a <? b then b
  else if b <? a then a
  else if (PrimFloat.is_zero a && negb (PrimFloat.get_sign a))%bool then a else b.

(** [Math.round(x)]: the integer nearest to [x], ties towards +infinity,
    computed on the exact value of the double; NaN, the infinities, the
    zeros and doubles that are integers already are returned as they are,
    and a negative [x] that rounds to zero gives -0. *)
Definition Math_round (x : float) : float :=
  match Prim2SF x with
  | S754_finite s m e =>
      if (0 <=? e)%Z then x
      else
        let k := (- e)%Z in
        let n := if s then Z.neg m else Z.pos m in
        let r := ((2 * n + 2 ^ k) / 2 ^ (k + 1))%Z in
        if (r <? 0)%Z then - of_uint63 (Uint63.of_Z (- r))
        else if s then - zero
        else of_uint63 (Uint63.of_Z r)
  | _ => x
  end.

(** [a <= x <= b] on doubles, as a boolean test. *)
Definition between (a b x : float) : bool := ((a <=? x) && (x <=? b))%bool.

End Num.
Export Num.

(** ** Values shown on the page *)

(** What a [catch] block receives. *)
Inductive JSError :=
| Error (message : JSString)      (* [new Error(message)], a rejected promise *)
| TypeError (property : string).  (* a property read on [undefined] or [null] *)

(** A template literal or a concatenation: the literal pieces of the source
    and the values interpolated between them, unflattened. *)
Inductive Part :=
| Lit (s : JSString)              (* a literal piece or an interpolated string *)
| Number (x : float)              (* an interpolated double *)
| Integer (z : Z)                 (* an interpolated integer: a length, a page *)
| MessageOf (e : JSError).        (* [err.message] *)

Definition Text := list Part.

Definition lit (s : string) : Text := [Lit (js s)].

(** The literals of the source that carry characters outside ASCII, code
    unit by code unit as the source file has them. *)
Definition ICON_WEB : JSString := [63743; 252; 229; 234]%N.
Definition ICON_DOC : JSString := [63743; 252; 236; 209]%N.
Definition ICON_BOOK : JSString := [63743; 252; 236; 241]%N.
Definition ICON_BUSY : JSString := [63743; 252; 238; 209]%N.
Definition ELLIPSIS : JSString := [8218; 196; 182]%N.

Definition WEB_SEARCH_MARKER : JSString :=
  ICON_WEB ++ js " **Information from Web Search:**".
Definition NO_ANSWER : JSString := js "No answer available.".
Definition DETAILS_LABEL : Text :=
  [Lit (js "<span>" ++ ICON_BOOK ++ js "</span> Details")].
Definition HIDE_DETAILS_LABEL : Text :=
  [Lit (js "<span>" ++ ICON_BOOK ++ js "</span> Hide Details")].
Definition PROCESSING_LABEL : Text :=
  [Lit (js "<span>" ++ ICON_BUSY ++ js "</span> Processing" ++ ELLIPSIS)].

(** ** The backend's answers *)

Record Source := mkSource {
  filename : JSString;
  content_preview : JSString;
  content_snippet : JSString;
  relevance : float;
  is_web_result : bool;
}.

(** The JSON body of a [/api/query] response.  A field the body lacks reads
    as [undefined], here [None]. *)
Record QueryResult := mkQueryResult {
  answer : option JSString;
  detailed_answer : option JSString;
  sources : option (list Source);
  justification : option JSString;
  error : option JSString;
}.

(** What the PDF library hands back for a loaded document. *)
Record PdfDoc := mkPdfDoc { numPages : Z }.

(** ** The page *)

Inductive ToastType := success | error_type | warn | info.

Inductive Display := DisplayUnset | DisplayNone | DisplayBlock.

(** Click handlers installed on elements by assignment to [onclick]. *)
Inductive Handler :=
| OpenInTab | Download | GenerateQuestion | ClearSelection
| PrevPage | NextPage | ZoomIn | ZoomOut.

Inductive CardAction :=
| OpenPDFViewer (s : Source)
| ShowWebResult (s : Source).

(** One source card, with the values its markup interpolates. *)
Record DocCard := mkDocCard {
  card_className : JSString;
  card_data_web : bool;
  card_icon : JSString;
  card_filename : JSString;
  card_preview : JSString;
  card_badge_class : JSString;
  card_relevancePercent : float;
  card_type : JSString;
  card_highlight_badge : bool;
  card_onclick : CardAction;
  card_title : JSString;
}.

Inductive Node :=
| TextNode (t : Text)                     (* text, or markup given literally *)
| FormattedText (s : JSString)            (* the markup [formatText(s)] returns *)
| SourceIndicator (web : bool)            (* div.answer-source-indicator *)
| ToastNode (type : ToastType) (message : Text)
| CardNode (card : DocCard)
| ViewerMarkup                            (* the viewer template of the modal *)
| WebResultMarkup (s : Source) (query : JSString)
| LoadError (e : JSError) (url : JSString)
| PdfPage (viewportScale : float) (textLayer : bool).

(** An element of the page, with the properties the controller reads or
    writes; heights, cursors and scroll positions are not kept. *)
Record Element := mkElement {
  hidden : bool;                (* [classList.contains('hidden')] *)
  content : list Node;          (* children: [innerHTML] or [textContent] *)
  value : JSString;
  disabled : bool;
  display : Display;            (* [style.display] *)
  onclick : option Handler;
}.

Definition blank : Element := mkElement false [] [] false DisplayUnset None.

Definition set_hidden (b : bool) (e : Element) : Element :=
  mkElement b (content e) (value e) (disabled e) (display e) (onclick e).
Definition set_content (c : list Node) (e : Element) : Element :=
  mkElement (hidden e) c (value e) (disabled e) (display e) (onclick e).
Definition set_value (v : JSString) (e : Element) : Element :=
  mkElement (hidden e) (content e) v (disabled e) (display e) (onclick e).
Definition set_disabled (b : bool) (e : Element) : Element :=
  mkElement (hidden e) (content e) (value e) b (display e) (onclick e).
Definition set_display (d : Display) (e : Element) : Element :=
  mkElement (hidden e) (content e) (value e) (disabled e) d (onclick e).
Definition set_onclick (h : Handler) (e : Element) : Element :=
  mkElement (hidden e) (content e) (value e) (disabled e) (display e) (Some h).

Definition appendChild (n : Node) (e : Element) : Element :=
  set_content (content e ++ [n]) e.
Definition insertAfterBegin (n : Node) (e : Element) : Element :=
  set_content (n :: content e) e.

(** ** Calls that leave the page *)

Inductive Timer :=
| ToastExpiry | ScrollDetailCard | StartViewer | SelectionSettled.

Inductive Effect :=
| Fetch (url : string) (method : string) (body : list (string * Text))
| GetDocument (url : JSString)
| GetPage (num : Z)
| RenderPage (num : Z) (viewportScale : float)
| GetTextContent (num : Z)
| ScrollIntoView (id : string)
| SetTimeout (t : Timer) (ms : Z)
| ClearTimeout (t : Timer)
| RemoveAllRanges
| WindowOpen (url : JSString)
| DownloadLink (url name : JSString)
| ConsoleError (e : JSError).

(** ** The controller's fields *)

Record SystemStatus := mkSystemStatus { ready : bool; has_documents : bool }.

Record App := mkApp {
  currentQuery : JSString;
  currentResult : option QueryResult;
  detailVisible : bool;
  systemStatus : SystemStatus;
  selectedText : JSString;
  currentPdfUrl : JSString;
  currentDocumentName : JSString;
  pdfDoc : option PdfDoc;
  pageNum : Z;
  scale : float;
  pageRendering : bool;
  pageNumPending : option Z;
}.

(** The state the constructor establishes. *)
Definition constructor : App :=
  mkApp [] None false (mkSystemStatus false false) [] [] [] None 1 1.0%float
        false None.

Record World := mkWorld {
  app : App;
  dom : gmap string Element;
  effects : list Effect;
}.

Definition with_app (f : App -> App) (w : World) : World :=
  mkWorld (f (app w)) (dom w) (effects w).

Definition log (e : Effect) (w : World) : World :=
  mkWorld (app w) (dom w) (effects w ++ [e]).

(** [if (el) el.... = ...]: the assignment is made when the element is in
    the page and skipped when the lookup gave [null]. *)
Definition update (id : string) (f : Element -> Element) (w : World) : World :=
  match dom w !! id with
  | Some e => mkWorld (app w) (<[id := f e]> (dom w)) (effects w)
  | None => w
  end.

Definition set_currentQuery (v : JSString) (a : App) : App :=
  mkApp v (currentResult a) (detailVisible a) (systemStatus a)
        (selectedText a) (currentPdfUrl a) (currentDocumentName a) (pdfDoc a)
        (pageNum a) (scale a) (pageRendering a) (pageNumPending a).
Definition set_currentResult (v : option QueryResult) (a : App) : App :=
  mkApp (currentQuery a) v (detailVisible a) (systemStatus a)
        (selectedText a) (currentPdfUrl a) (currentDocumentName a) (pdfDoc a)
        (pageNum a) (scale a) (pageRendering a) (pageNumPending a).
Definition set_detailVisible (v : bool) (a : App) : App :=
  mkApp (currentQuery a) (currentResult a) v (systemStatus a)
        (selectedText a) (currentPdfUrl a) (currentDocumentName a) (pdfDoc a)
        (pageNum a) (scale a) (pageRendering a) (pageNumPending a).
Definition set_selectedText (v : JSString) (a : App) : App :=
  mkApp (currentQuery a) (currentResult a) (detailVisible a) (systemStatus a)
        v (currentPdfUrl a) (currentDocumentName a) (pdfDoc a)
        (pageNum a) (scale a) (pageRendering a) (pageNumPending a).
Definition set_currentPdfUrl (v : JSString) (a : App) : App :=
  mkApp (currentQuery a) (currentResult a) (detailVisible a) (systemStatus a)
        (selectedText a) v (currentDocumentName a) (pdfDoc a)
        (pageNum a) (scale a) (pageRendering a) (pageNumPending a).
Definition set_currentDocumentName (v : JSString) (a : App) : App :=
  mkApp (currentQuery a) (currentResult a) (detailVisible a) (systemStatus a)
        (selectedText a) (currentPdfUrl a) v (pdfDoc a)
        (pageNum a) (scale a) (pageRendering a) (pageNumPending a).
Definition set_pdfDoc (v : option PdfDoc) (a : App) : App :=
  mkApp (currentQuery a) (currentResult a) (detailVisible a) (systemStatus a)
        (selectedText a) (currentPdfUrl a) (currentDocumentName a) v
        (pageNum a) (scale a) (pageRendering a) (pageNumPending a).
Definition set_pageNum (v : Z) (a : App) : App :=
  mkApp (currentQuery a) (currentResult a) (detailVisible a) (systemStatus a)
        (selectedText a) (currentPdfUrl a) (currentDocumentName a) (pdfDoc a)
        v (scale a) (pageRendering a) (pageNumPending a).
Definition set_scale (v : float) (a : App) : App :=
  mkApp (currentQuery a) (currentResult a) (detailVisible a) (systemStatus a)
        (selectedText a) (currentPdfUrl a) (currentDocumentName a) (pdfDoc a)
        (pageNum a) v (pageRendering a) (pageNumPending a).
Definition set_pageRendering (v : bool) (a : App) : App :=
  mkApp (currentQuery a) (currentResult a) (detailVisible a) (systemStatus a)
        (selectedText a) (currentPdfUrl a) (currentDocumentName a) (pdfDoc a)
        (pageNum a) (scale a) v (pageNumPending a).
Definition set_pageNumPending (v : option Z) (a : App) : App :=
  mkApp (currentQuery a) (currentResult a) (detailVisible a) (systemStatus a)
        (selectedText a) (currentPdfUrl a) (currentDocumentName a) (pdfDoc a)
        (pageNum a) (scale a) (pageRendering a) v.

(** How a synchronous stretch of code ends: normally, or by an exception
    that leaves the assignments made so far in place. *)
Inductive Completion :=
| Normal (w : World)
| Thrown (e : JSError) (w : World).

(** ** Notifications and the loading overlay *)

(** [toast(message, type, timeout)].  The node is appended to [#toasts];
    without that element nothing is shown.  Its removal, on a click or when
    the timer set here expires, is a later event. *)
Definition toast_for (message : Text) (type : ToastType) (timeout : Z)
    (w : World) : World :=
  match dom w !! "toasts" with
  | None => w
  | Some _ =>
      log (SetTimeout ToastExpiry timeout)
          (update "toasts" (appendChild (ToastNode type message)) w)
  end.

(** [toast(message, type)], with the default timeout. *)
Definition toast (message : Text) (type : ToastType) (w : World) : World :=
  toast_for message type 3000 w.

Definition showAlert (message : Text) (type : ToastType) (w : World) : World :=
  toast message type w.

Definition showLoading (msg : Text) (w : World) : World :=
  let w := update ".loading-text" (set_content [TextNode msg]) w in
  update "loadingOverlay" (set_hidden false) w.

Definition hideLoading (w : World) : World :=
  update "loadingOverlay" (set_hidden true) w.

(** The toasts on the page, oldest first. *)
Definition toasts (w : World) : list Node :=
  match dom w !! "toasts" with
  | Some e => content e
  | None => []
  end.

(** ** Asking a question *)

Definition hideResults (w : World) : World :=
  let w := update "resultsSection" (set_hidden true) w in
  let w := update "detailCard" (set_hidden true) w in
  let w := update "docsCard" (set_hidden true) w in
  let w := with_app (set_detailVisible false) w in
  update "detailToggle" (set_content [TextNode DETAILS_LABEL]) w.

Definition clearQuery (w : World) : World :=
  let w := update "queryInput" (set_value []) w in
  let w := hideResults w in
  toast (lit "Query cleared") success w.

(** The question as [processQuery] reads it:
    [input ? (input.value || '').trim() : '']. *)
Definition question (w : World) : JSString :=
  match dom w !! "queryInput" with
  | Some input => trim (value input)
  | None => []
  end.

(** [askBtn ? askBtn.innerHTML : ''] *)
Definition askButton_label (w : World) : list Node :=
  match dom w !! "askButton" with
  | Some askBtn => content askBtn
  | None => []
  end.

(** [processQuery()], up to its [await fetch(...)]. *)
Definition processQuery (w : World) : World :=
  let q := question w in
  if negb (truthy q) then
    showAlert (lit "Please enter a question.") warn w
  else
    let w := with_app (set_currentQuery q) w in
    let w := showLoading [Lit (js "Processing your query" ++ ELLIPSIS)] w in
    let w :=
      update "askButton"
        (fun askBtn =>
           set_content [TextNode PROCESSING_LABEL] (set_disabled true askBtn))
        w in
    log (Fetch "/api/query" "POST" [("query", [Lit q])]) w.

(** The card [displayResults] builds for one entry of [data.sources]. *)
Definition doc_card (s : Source) : DocCard :=
  {| card_className := js "doc-card";
     card_data_web := is_web_result s;
     card_icon := if is_web_result s then ICON_WEB else ICON_DOC;
     card_filename := filename s;
     card_preview := content_preview s;
     card_badge_class :=
       if is_web_result s then js "web-result" else js "document-result";
     card_relevancePercent := Math_round (relevance s * 100)%float;
     card_type :=
       if is_web_result s then js "Web Result" else js "PDF Document";
     card_highlight_badge := negb (is_web_result s);
     card_onclick :=
       if is_web_result s then ShowWebResult s else OpenPDFViewer s;
     card_title :=
       if is_web_result s then js "Click to view web result"
       else js "Click to open PDF with accurate text highlighting" |}.

(** [data.sources && data.sources.length] *)
Definition has_sources (data : QueryResult) : bool :=
  match sources data with
  | Some (_ :: _) => true
  | _ => false
  end.

(** The answer pane of [displayResults].  [data.answer || '...'] supplies a
    text when the answer is missing or empty; [data.answer.includes] then
    reads the answer itself. *)
Definition displayAnswer (data : QueryResult) (w : World) : Completion :=
  match dom w !! "answerContent" with
  | None => Normal w
  | Some _ =>
      let shown :=
        match answer data with
        | Some a => or_else a NO_ANSWER
        | None => NO_ANSWER
        end in
      let w := update "answerContent" (set_content [FormattedText shown]) w in
      match answer data with
      | None => Thrown (TypeError "includes") w
      | Some a =>
          if includes a WEB_SEARCH_MARKER then
            Normal (update "answerContent"
                      (insertAfterBegin (SourceIndicator true)) w)
          else if has_sources data then
            Normal (update "answerContent"
                      (insertAfterBegin (SourceIndicator false)) w)
          else Normal w
      end
  end.

(** The source list of [displayResults]: the container is emptied, then
    one card is appended per entry, in order. *)
Definition displaySources (data : QueryResult) (w : World) : World :=
  let w := update "documentsContainer" (set_content []) w in
  match sources data, dom w !! "documentsContainer", dom w !! "docsCard" with
  | Some (s :: rest), Some _, Some _ =>
      let w := update "docsCard" (set_hidden false) w in
      fold_left
        (fun w s =>
           update "documentsContainer" (appendChild (CardNode (doc_card s))) w)
        (s :: rest) w
  | _, _, _ => w
  end.

Definition displayResults (data : QueryResult) (w : World) : Completion :=
  let w := update "resultsSection" (set_hidden false) w in
  match displayAnswer data w with
  | Thrown e w => Thrown e w
  | Normal w =>
      let w := displaySources data w in
      match dom w !! "resultsSection" with
      | Some _ => Normal (log (ScrollIntoView "resultsSection") w)
      | None => Normal w
      end
  end.

(** What [await fetch(...)] followed by [await res.json()] yields. *)
Inductive FetchResult :=
| Rejected (message : JSString)
| Responded (ok : bool) (data : QueryResult).

(** The [try] block of [processQuery] after the response arrived.
    [processingTime] is the elapsed time as [toFixed(1)] printed it. *)
Definition processQuery_try (processingTime : JSString) (r : FetchResult)
    (w : World) : Completion :=
  match r with
  | Rejected m => Thrown (Error m) w
  | Responded false data =>
      let m := match error data with
               | Some e => or_else e (js "Query failed")
               | None => js "Query failed"
               end in
      Thrown (Error m) w
  | Responded true data =>
      let w := with_app (set_currentResult (Some data)) w in
      match displayResults data w with
      | Thrown e w => Thrown e w
      | Normal w =>
          match answer data with
          | None => Thrown (TypeError "includes") w
          | Some a =>
              if includes a WEB_SEARCH_MARKER then
                Normal (toast [Lit (js "Web search completed in ");
                               Lit processingTime; Lit (js "s")] info w)
              else
                Normal (toast [Lit (js "Document search completed in ");
                               Lit processingTime; Lit (js "s")] success w)
          end
      end
  end.

(** [processQuery()] from the response on: [try], [catch], [finally].
    [originalText] is the label the ask button had at submission. *)
Definition processQuery_resume (originalText : list Node)
    (processingTime : JSString) (r : FetchResult) (w : World) : World :=
  let w :=
    match processQuery_try processingTime r w with
    | Normal w => w
    | Thrown err w => showAlert [Lit (js "Error: "); MessageOf err] error_type w
    end in
  let w := hideLoading w in
  update "askButton"
    (fun askBtn => set_content originalText (set_disabled false askBtn)) w.

(** The cards in the source list, in document order. *)
Definition source_cards (w : World) : list Node :=
  match dom w !! "documentsContainer" with
  | Some e => content e
  | None => []
  end.

(** ** The detailed explanation *)

Definition toggleDetailedExplanation (w : World) : World :=
  match currentResult (app w) with
  | None => w
  | Some result =>
      match dom w !! "detailCard", dom w !! "detailToggle" with
      | Some _, Some _ =>
          if detailVisible (app w) then
            let w := update "detailCard" (set_hidden true) w in
            let w :=
              update "detailToggle" (set_content [TextNode DETAILS_LABEL]) w in
            with_app (set_detailVisible false) w
          else
            let w := update "detailCard" (set_hidden false) w in
            let text := match detailed_answer result with
                        | Some t => t
                        | None => []
                        end in
            let w :=
              update "detailContent" (set_content [FormattedText text]) w in
            let w :=
              update "detailToggle"
                (set_content [TextNode HIDE_DETAILS_LABEL]) w in
            let w := with_app (set_detailVisible true) w in
            log (SetTimeout ScrollDetailCard 100) w
      | _, _ => w
      end
  end.

(** ** The document viewer *)

(** An uncaught exception of an event handler reaches the page-level
    [error] listener. *)
Definition window_onerror (e : JSError) (w : World) : World :=
  showAlert (lit "An unexpected error occurred") error_type
            (log (ConsoleError e) w).

Definition settle (c : Completion) : World :=
  match c with
  | Normal w => w
  | Thrown e w => window_onerror e w
  end.

Definition cleanupModal (w : World) : World :=
  let w := with_app (set_selectedText []) w in
  let w := with_app (set_pdfDoc None) w in
  let w := with_app (set_currentPdfUrl []) w in
  with_app (set_currentDocumentName []) w.

(** The body shared by the three listeners of [bindModal]. *)
Definition closeModal (w : World) : World :=
  cleanupModal (update "snippetModal" (set_hidden true) w).

Inductive ModalEvent :=
| CloseClicked                      (* a click on [#modalClose] *)
| KeyDown (key : JSString)          (* a key pressed anywhere in the window *)
| ModalClicked (onBackdrop : bool). (* a click inside [#snippetModal];
                                       on the backdrop [e.target === modal] *)

(** The listeners [bindModal] installs, as a function of the event. *)
Definition bindModal (ev : ModalEvent) (w : World) : World :=
  match ev with
  | CloseClicked =>
      match dom w !! "modalClose", dom w !! "snippetModal" with
      | Some _, Some _ => closeModal w
      | _, _ => w
      end
  | KeyDown key =>
      match dom w !! "snippetModal" with
      | Some modal =>
          if code_units_eqb key (js "Escape") && negb (hidden modal)
          then closeModal w else w
      | None => w
      end
  | ModalClicked onBackdrop =>
      match dom w !! "snippetModal" with
      | Some _ => if onBackdrop then closeModal w else w
      | None => w
      end
  end.

(** The elements with an id in the viewer template that
    [openAccuratePDFViewer] writes into [#modalMessage]. *)
Definition viewer_elements : list (string * Element) :=
  [ ("openInTabBtn", blank);
    ("downloadPDFBtn", blank);
    ("prevPageBtn", blank);
    ("pageInfoDisplay", set_content [TextNode (lit "Page 1 of 1")] blank);
    ("nextPageBtn", blank);
    ("zoomOutBtn", blank);
    ("zoomLevelDisplay", set_content [TextNode (lit "100%")] blank);
    ("zoomInBtn", blank);
    ("pdfDisplayContainer", blank);
    ("loadingMessage", blank);
    ("textSelectionDisplay", set_display DisplayNone blank);
    ("selectedTextBox", blank);
    ("generateQuestionBtn", blank);
    ("clearSelectionBtn", blank) ].

(** [message.innerHTML = ...]: the former children of [#modalMessage] leave
    the page and the elements of the new markup enter it. *)
Definition set_modalMessage (markup : Node) (children : list (string * Element))
    (w : World) : World :=
  let without := foldr (fun c d => delete (fst c) d) (dom w) viewer_elements in
  let d := foldr (fun c d => <[fst c := snd c]> d) without children in
  update "modalMessage" (set_content [markup]) (mkWorld (app w) d (effects w)).

Definition openAccuratePDFViewer (source : Source) (w : World) : World :=
  match dom w !! "snippetModal", dom w !! "modalTitle",
        dom w !! "modalSubtitle", dom w !! "modalMessage" with
  | Some _, Some _, Some _, Some _ =>
      let w :=
        update "modalTitle"
          (set_content [TextNode [Lit (ICON_DOC ++ js " ");
                                  Lit (filename source);
                                  Lit (js " - PDF Highlighter")]]) w in
      let w :=
        update "modalSubtitle"
          (set_content
             [TextNode (lit "Accurate text highlighting and navigation")]) w in
      let w := with_app (set_currentDocumentName (filename source)) w in
      let w := with_app (set_currentPdfUrl (js "/docs/" ++ filename source)) w in
      let w := set_modalMessage ViewerMarkup viewer_elements w in
      let w := log (SetTimeout StartViewer 100) w in
      update "snippetModal" (set_hidden false) w
  | _, _, _, _ => showAlert (lit "Modal elements not found") error_type w
  end.

Definition showWebResult (source : Source) (w : World) : World :=
  match dom w !! "snippetModal", dom w !! "modalTitle",
        dom w !! "modalSubtitle", dom w !! "modalMessage" with
  | Some _, Some _, Some _, Some _ =>
      let w :=
        update "modalTitle"
          (set_content [TextNode [Lit (ICON_WEB ++ js " ");
                                  Lit (filename source)]]) w in
      let w :=
        update "modalSubtitle" (set_content [TextNode (lit "Web search result")])
               w in
      let w :=
        set_modalMessage (WebResultMarkup source (currentQuery (app w))) [] w in
      update "snippetModal" (set_hidden false) w
  | _, _, _, _ => w
  end.

(** A click on a source card runs the listener [displayResults] gave it. *)
Definition card_clicked (card : DocCard) (w : World) : World :=
  match card_onclick card with
  | OpenPDFViewer s => openAccuratePDFViewer s w
  | ShowWebResult s => showWebResult s w
  end.

(** *** Rendering a page *)

(** The [catch] block of [renderPageAccurately]. *)
Definition renderPage_catch (e : JSError) (w : World) : World :=
  let w := log (ConsoleError e) w in
  let w := with_app (set_pageRendering false) w in
  showAlert [Lit (js "Error rendering PDF page: "); MessageOf e] error_type w.

(** [renderPageAccurately(num)], up to [await this.pdfDoc.getPage(num)]. *)
Definition renderPageAccurately (num : Z) (w : World) : World :=
  if pageRendering (app w) then
    with_app (set_pageNumPending (Some num)) w
  else
    let w := with_app (set_pageRendering true) w in
    match pdfDoc (app w) with
    | None => renderPage_catch (TypeError "getPage") w
    | Some _ => log (GetPage num) w
    end.

(** Resumption when the page arrived, up to [await page.render(...)].  The
    viewport is computed from the scale of that moment; the new page
    container replaces the children of [#pdfDisplayContainer], the loading
    message among them. *)
Definition renderPage_gotPage (num : Z) (w : World) : World :=
  let viewport := scale (app w) in
  match dom w !! "pdfDisplayContainer" with
  | None => with_app (set_pageRendering false) w
  | Some _ =>
      let w := mkWorld (app w) (delete "loadingMessage" (dom w)) (effects w) in
      let w :=
        update "pdfDisplayContainer" (set_content [PdfPage viewport false]) w in
      log (RenderPage num viewport) w
  end.

(** Resumption when the canvas is painted, up to
    [await page.getTextContent()]. *)
Definition renderPage_painted (num : Z) (w : World) : World :=
  log (GetTextContent num) w.

(** The text layer created by [renderPage_gotPage] receives its spans and
    its selection listeners; a page container that has left the page in the
    meantime is not in the map any more. *)
Definition fillTextLayer (e : Element) : Element :=
  match content e with
  | [PdfPage viewport _] => set_content [PdfPage viewport true] e
  | _ => e
  end.

(** Resumption when the text content arrived: the rest of the [try]
    block. *)
Definition renderPage_gotText (num : Z) (w : World) : World :=
  let w := update "pdfDisplayContainer" fillTextLayer w in
  let w := with_app (set_pageRendering false) w in
  let w :=
    match pageNumPending (app w) with
    | Some pending =>
        let w := renderPageAccurately pending w in
        with_app (set_pageNumPending None) w
    | None => w
    end in
  match dom w !! "pageInfoDisplay" with
  | None => w
  | Some _ =>
      match pdfDoc (app w) with
      | None => renderPage_catch (TypeError "numPages") w
      | Some doc =>
          update "pageInfoDisplay"
            (set_content [TextNode [Lit (js "Page "); Integer num;
                                    Lit (js " of "); Integer (numPages doc)]])
            w
      end
  end.

(** Resumption when one of the awaited promises was rejected. *)
Definition renderPage_rejected (e : JSError) (w : World) : World :=
  renderPage_catch e w.

(** *** Selecting text *)

Definition clearPDFSelection (w : World) : World :=
  let w := with_app (set_selectedText []) w in
  let w := update "textSelectionDisplay" (set_display DisplayNone) w in
  let w := log RemoveAllRanges w in
  toast (lit "Selection cleared") info w.

(** [handleSelection], the [mouseup] and [touchend] listener of the text
    layer: the timer is restarted. *)
Definition handleSelection (w : World) : World :=
  log (SetTimeout SelectionSettled 250) (log (ClearTimeout SelectionSettled) w).

(** The timer's callback, 250 ms after the last [mouseup] or [touchend];
    [selection] is [window.getSelection().toString()] at that moment. *)
Definition selectionSettled (selection : JSString) (w : World) : World :=
  let selected := trim selection in
  if (5 <? length selected)%nat then
    let w := with_app (set_selectedText selected) w in
    let w :=
      match dom w !! "textSelectionDisplay", dom w !! "selectedTextBox" with
      | Some _, Some _ =>
          let w :=
            update "selectedTextBox" (set_content [TextNode [Lit selected]]) w in
          let w := update "textSelectionDisplay" (set_display DisplayBlock) w in
          log (ScrollIntoView "textSelectionDisplay") w
      | _, _ => w
      end in
    toast [Lit (js "Selected "); Integer (Z.of_nat (length selected));
           Lit (js " characters. Use buttons below to generate questions.")]
          success w
  else clearPDFSelection w.

(** *** Page and zoom controls *)

Definition prevBtn_onclick (w : World) : World :=
  if pageNum (app w) <=? 1 then
    toast (lit "Already on first page") info w
  else
    let w := with_app (set_pageNum (pageNum (app w) - 1)) w in
    let w := renderPageAccurately (pageNum (app w)) w in
    clearPDFSelection w.

(** [this.pdfDoc.numPages] is read before anything else. *)
Definition nextBtn_onclick (w : World) : Completion :=
  match pdfDoc (app w) with
  | None => Thrown (TypeError "numPages") w
  | Some doc =>
      if numPages doc <=? pageNum (app w) then
        Normal (toast (lit "Already on last page") info w)
      else
        let w := with_app (set_pageNum (pageNum (app w) + 1)) w in
        let w := renderPageAccurately (pageNum (app w)) w in
        Normal (clearPDFSelection w)
  end.

(** [Math.round(this.scale * 100)] *)
Definition zoomPercent (w : World) : float :=
  Math_round (scale (app w) * 100)%float.

(** What both zoom handlers do once the scale is set. *)
Definition zoom_epilogue (w : World) : World :=
  let w := renderPageAccurately (pageNum (app w)) w in
  let w :=
    update "zoomLevelDisplay"
      (set_content [TextNode [Number (zoomPercent w); Lit (js "%")]]) w in
  let w := clearPDFSelection w in
  toast [Lit (js "Zoomed to "); Number (zoomPercent w); Lit (js "%")] info w.

Definition zoomInBtn_onclick (w : World) : World :=
  let w :=
    with_app (set_scale (Math_min (scale (app w) + 0.25) 3.0)%float) w in
  zoom_epilogue w.

Definition zoomOutBtn_onclick (w : World) : World :=
  let w :=
    with_app (set_scale (Math_max (scale (app w) - 0.25) 0.5)%float) w in
  zoom_epilogue w.

Definition bindPDFNavigationControls (w : World) : World :=
  let w := update "prevPageBtn" (set_onclick PrevPage) w in
  let w := update "nextPageBtn" (set_onclick NextPage) w in
  let w := update "zoomInBtn" (set_onclick ZoomIn) w in
  update "zoomOutBtn" (set_onclick ZoomOut) w.

(** *** Loading a document *)

Definition setupPDFEventHandlers (w : World) : World :=
  let w := update "openInTabBtn" (set_onclick OpenInTab) w in
  let w := update "downloadPDFBtn" (set_onclick Download) w in
  let w := update "generateQuestionBtn" (set_onclick GenerateQuestion) w in
  update "clearSelectionBtn" (set_onclick ClearSelection) w.

(** [initializeAccuratePDFViewer()], up to [await loadingTask.promise]; the
    PDF library is taken to be loaded. *)
Definition initializeAccuratePDFViewer (w : World) : World :=
  log (GetDocument (currentPdfUrl (app w))) w.

(** The callback of the timer [openAccuratePDFViewer] sets. *)
Definition startViewer (w : World) : World :=
  initializeAccuratePDFViewer (setupPDFEventHandlers w).

(** Resumption when the document arrived, up to
    [await this.renderPageAccurately(this.pageNum)]. *)
Definition initialize_loaded (doc : PdfDoc) (w : World) : World :=
  let w := with_app (set_pdfDoc (Some doc)) w in
  let w := update "loadingMessage" (set_display DisplayNone) w in
  let w := with_app (set_pageNum 1) w in
  let w := with_app (set_scale 1.0%float) w in
  renderPageAccurately (pageNum (app w)) w.

(** Resumption when the first call of [renderPageAccurately] returned. *)
Definition initialize_rendered (w : World) : World :=
  let w := bindPDFNavigationControls w in
  toast (lit "PDF loaded successfully with accurate highlighting!") success w.

(** The [catch] block of [initializeAccuratePDFViewer]. *)
Definition initialize_failed (e : JSError) (w : World) : World :=
  let w := log (ConsoleError e) w in
  let w :=
    showAlert [Lit (js "Failed to load PDF: "); MessageOf e] error_type w in
  update "loadingMessage"
    (set_content [LoadError e (currentPdfUrl (app w))]) w.

(** *** A follow-up question from the selection *)

(** [generateFollowUpFromPDF()], up to [await fetch(...)]. *)
Definition generateFollowUpFromPDF (w : World) : World :=
  if negb (truthy (selectedText (app w))) then
    showAlert
      (lit "Please select some text first by clicking and dragging on the PDF")
      warn w
  else
    let w :=
      showLoading
        (lit "Generating intelligent follow-up question from selected text...")
        w in
    log (Fetch "/api/followup" "POST"
           [("selected_text", [Lit (selectedText (app w))]);
            ("context", [Lit (js "Selected from PDF: ");
                         Lit (currentDocumentName (app w));
                         Lit (js ", Page "); Integer (pageNum (app w))]);
            ("document_name", [Lit (currentDocumentName (app w))])]) w.

Inductive FollowUpResult :=
| FollowUpRejected (message : JSString)
| FollowUpResponded (ok : bool) (question : JSString) (error : JSString).

(** [generateFollowUpFromPDF()] from the response on.  [confirmed] is the
    user's answer to the [confirm] dialog. *)
Definition generateFollowUp_resume (r : FollowUpResult) (confirmed : bool)
    (w : World) : World :=
  let failed (m : JSString) (w : World) :=
    showAlert [Lit (js "Failed to generate follow-up question: ");
               MessageOf (Error m)] error_type (hideLoading w) in
  match r with
  | FollowUpRejected m => failed m w
  | FollowUpResponded false _ err => failed err w
  | FollowUpResponded true q _ =>
      let w := hideLoading w in
      let w := update "queryInput" (set_value q) w in
      let w := closeModal w in
      let w :=
        toast (lit "Follow-up question generated from highlighted PDF text!")
              success w in
      if confirmed then processQuery w else w
  end.

(** *** Clicks on the viewer's buttons *)

Definition run_handler (h : Handler) (w : World) : World :=
  match h with
  | OpenInTab =>
      toast (lit "PDF opened in new tab") success
            (log (WindowOpen (currentPdfUrl (app w))) w)
  | Download =>
      toast (lit "Download started") success
            (log (DownloadLink (currentPdfUrl (app w))
                               (currentDocumentName (app w))) w)
  | GenerateQuestion => generateFollowUpFromPDF w
  | ClearSelection => clearPDFSelection w
  | PrevPage => prevBtn_onclick w
  | NextPage => settle (nextBtn_onclick w)
  | ZoomIn => zoomInBtn_onclick w
  | ZoomOut => zoomOutBtn_onclick w
  end.

(** A click on the element [id]: its [onclick] handler runs, if it is in the
    page and has one. *)
Definition click (id : string) (w : World) : World :=
  match dom w !! id with
  | Some el =>
      match onclick el with
      | Some h => run_handler h w
      | None => w
      end
  | None => w
  end.

(** ** Start-up *)

(** [new CampusQueryApp()] on a page: the fields, then [init()], which
    installs the listeners, asks for the backend's status and greets. *)
Definition init (page : gmap string Element) : World :=
  let w := mkWorld constructor page [] in
  let w := log (Fetch "/api/status" "GET" []) w in
  toast (lit "Welcome to Enhanced CampusQuery with Accurate Highlighting!")
        success w.

(** ** Observations and actions the statements speak about *)

(** The network requests issued so far. *)
Definition is_fetch (e : Effect) : bool :=
  match e with
  | Fetch _ _ _ => true
  | _ => false
  end.

Definition requests (w : World) : list Effect := List.filter is_fetch (effects w).

(** The pages whose rendering was started so far, in order. *)
Definition started_page (e : Effect) : option Z :=
  match e with
  | GetPage n => Some n
  | _ => None
  end.

Definition renders (w : World) : list Z := omap started_page (effects w).

Inductive PageAction := Back | Forward.

(** One click on the Prev or on the Next button. *)
Definition turn (w : World) (a : PageAction) : World :=
  match a with
  | Back => prevBtn_onclick w
  | Forward => settle (nextBtn_onclick w)
  end.

Inductive ZoomAction := Increment | Decrement.

(** One click on the zoom-in or on the zoom-out button. *)
Definition zoom (w : World) (a : ZoomAction) : World :=
  match a with
  | Increment => zoomInBtn_onclick w
  | Decrement => zoomOutBtn_onclick w
  end.

(** The scales within reach of 1.0 in steps of a quarter.  All of them, and
    the sums and differences the handlers form on them, are doubles that
    represent their decimal value exactly. *)
Definition zoom_levels : list float :=
  [0.5; 0.75; 1.0; 1.25; 1.5; 1.75; 2.0; 2.25; 2.5; 2.75; 3.0]%float.

(** The pending slot after the requests [requested], made in that order
    while a render is in flight: each request overwrites the slot. *)
Definition coalesced (pending : option Z) (requested : list Z) : option Z :=
  fold_left (fun _ n => Some n) requested pending.

(** The requests [requested], made one after the other. *)
Definition request_pages (requested : list Z) (w : World) : World :=
  fold_left (fun w n => renderPageAccurately n w) requested w.

Definition detail_panel_hidden (w : World) : Prop :=
  exists card, dom w !! "detailCard" = Some card /\ hidden card = true.

Definition details_button_shows (label : Text) (w : World) : Prop :=
  exists btn, dom w !! "detailToggle" = Some btn
              /\ content btn = [TextNode label].

(** The three ways [bindModal] offers to close the modal. *)
Inductive closes : ModalEvent -> Prop :=
| closes_button : closes CloseClicked
| closes_escape : closes (KeyDown (js "Escape"))
| closes_backdrop : closes (ModalClicked true).

(** The modal is in the page, open, and has its close button. *)
Definition modal_open (w : World) : Prop :=
  (exists modal, dom w !! "snippetModal" = Some modal /\ hidden modal = false)
  /\ (exists closeBtn, dom w !! "modalClose" = Some closeBtn).

Definition modal_hidden (w : World) : Prop :=
  exists modal, dom w !! "snippetModal" = Some modal /\ hidden modal = true.

(** The modal closes: through one of the listeners of [bindModal] while it
    is open, or when a follow-up question has arrived. *)
Inductive modal_closes (w : World) : World -> Prop :=
| closed_by_listener (ev : ModalEvent) :
    closes ev -> modal_open w -> modal_closes w (bindModal ev w)
| closed_by_follow_up (q err : JSString) (confirmed : bool) :
    modal_closes w
      (generateFollowUp_resume (FollowUpResponded true q err) confirmed w).

(** Every field of the viewing session has the value the constructor gave
    it. *)
Definition session_reset (a : App) : Prop :=
  pdfDoc a = pdfDoc constructor
  /\ pageNum a = pageNum constructor
  /\ scale a = scale constructor
  /\ pageNumPending a = pageNumPending constructor
  /\ pageRendering a = pageRendering constructor
  /\ selectedText a = selectedText constructor
  /\ currentDocumentName a = currentDocumentName constructor
  /\ currentPdfUrl a = currentPdfUrl constructor.

Definition selection_box_shows (t : JSString) (w : World) : Prop :=
  (exists box, dom w !! "selectedTextBox" = Some box
               /\ content box = [TextNode [Lit t]])
  /\ (exists panel, dom w !! "textSelectionDisplay" = Some panel
                    /\ display panel = DisplayBlock).

Definition selection_display_hidden (w : World) : Prop :=
  exists panel, dom w !! "textSelectionDisplay" = Some panel
                /\ display panel = DisplayNone.

(** The viewer's selection panel and its text box are in the page. *)
Definition selection_panel_present (w : World) : Prop :=
  (exists panel, dom w !! "textSelectionDisplay" = Some panel)
  /\ (exists box, dom w !! "selectedTextBox" = Some box).

(** ** The compose area and the keyboard *)

(** The world a stretch of code leaves, however it ended. *)
Definition world_of (c : Completion) : World :=
  match c with
  | Normal w => w
  | Thrown _ w => w
  end.

(** The [click] listener of [#sampleQuestions], for a click on a chip whose
    [dataset.query || textContent] is [query].  The field is written
    without a test for its presence. *)
Definition sampleQuestions_click (query : JSString) (w : World) : Completion :=
  match dom w !! "queryInput" with
  | None => Thrown (TypeError "value") w
  | Some _ => Normal (update "queryInput" (set_value query) w)
  end.

(** The [keydown] listener [bindCompose] puts on [#queryInput]. *)
Definition queryInput_keydown (ctrlKey : bool) (key : JSString) (w : World)
    : World :=
  if ctrlKey && code_units_eqb key (js "Enter") then processQuery w else w.

(** The [keydown] listener put on [document] once the page is loaded;
    [inQueryInput] tells whether [document.activeElement] is the element
    [#queryInput]. *)
Definition document_keydown (ctrlKey metaKey : bool) (key : JSString)
    (inQueryInput : bool) (w : World) : World :=
  if (ctrlKey || metaKey) && code_units_eqb key (js "Enter") then
    if inQueryInput then processQuery w else w
  else w.

(** A key pressed while the query field has the focus: the event reaches
    the field's listener, then bubbles to the document's and to the
    window's, which is the one of [bindModal]. *)
Definition keydown_in_queryInput (ctrlKey metaKey : bool) (key : JSString)
    (w : World) : World :=
  match dom w !! "queryInput" with
  | None => w
  | Some _ =>
      let w := queryInput_keydown ctrlKey key w in
      let w := document_keydown ctrlKey metaKey key true w in
      bindModal (KeyDown key) w
  end.


(** ** The markup of an answer *)

(** [formatText] is four replacements with regular expressions.  Each is
    written out here as the function on code units that the expression
    denotes. *)

(** The characters [.] does not match, and at which [^] and [$] match under
    the [m] flag: the LineTerminators of ECMA-262. *)
Definition is_line_terminator (c : N) : bool :=
  (N.eqb c 10 || N.eqb c 13 || N.eqb c 8232 || N.eqb c 8233)%bool.

(** Whether [(.*?)\*\*] matches at the head of [s]: two stars (code unit
    42) are met before any line terminator. *)
Fixpoint closing_stars (s : JSString) : bool :=
  match s with
  | c :: s' =>
      match s' with
      | d :: _ =>
          if (N.eqb c 42 && N.eqb d 42)%bool then true
          else (negb (is_line_terminator c) && closing_stars s')%bool
      | [] => false
      end
  | [] => false
  end.

(** [t.replace(/\*\*(.*?)\*\*/g, '<strong>$1</strong>')].  Outside a
    match, two stars open one when [closing_stars] holds of what follows, and are
    copied otherwise; inside, the first two stars end it, the group being
    lazy. *)
Fixpoint strong (inside : bool) (s : JSString) : JSString :=
  match s with
  | [] => []
  | c :: s' =>
      match s' with
      | d :: rest =>
          if (N.eqb c 42 && N.eqb d 42)%bool then
            if inside then js "</strong>" ++ strong false rest
            else if closing_stars rest then js "<strong>" ++ strong true rest
            else c :: strong false s'
          else c :: strong inside s'
      | [] => [c]
      end
  end.

(** [t.replace(/\n/g, '<br>')] *)
Fixpoint line_breaks (s : JSString) : JSString :=
  match s with
  | [] => []
  | c :: s' => (if N.eqb c 10 then js "<br>" else [c]) ++ line_breaks s'
  end.

(** Where the scan of [/^- (.+)$/gm] stands in its line: at its start, past
    its start outside an item, on the space after the dash of an item, or
    inside an item. *)
Inductive Place := LineStart | InLine | AfterDash | InItem.

(** Whether [ (.+)$] matches after a dash: a space (32) and at least one
    character of the same line. *)
Definition item_follows (s : JSString) : bool :=
  match s with
  | d :: e :: _ => (N.eqb d 32 && negb (is_line_terminator e))%bool
  | _ => false
  end.

(** [t.replace(/^- (.+)$/gm, '<li>$1</li>')]: a line that starts with a
    dash (45), a space and one more character becomes an item holding the
    rest of the line. *)
Fixpoint list_items (p : Place) (s : JSString) : JSString :=
  match s with
  | [] => match p with InItem => js "</li>" | _ => [] end
  | c :: s' =>
      match p with
      | LineStart =>
          if is_line_terminator c then c :: list_items LineStart s'
          else if (N.eqb c 45 && item_follows s')%bool
               then js "<li>" ++ list_items AfterDash s'
               else c :: list_items InLine s'
      | AfterDash => list_items InItem s'
      | InLine =>
          if is_line_terminator c then c :: list_items LineStart s'
          else c :: list_items InLine s'
      | InItem =>
          if is_line_terminator c
          then js "</li>" ++ c :: list_items LineStart s'
          else c :: list_items InItem s'
      end
  end.

(** The text before the first occurrence of [needle] in [s] and the text
    after it. *)
Fixpoint split_first (needle s : JSString) : option (JSString * JSString) :=
  if startsWith s needle then Some ([], drop (length needle) s)
  else match s with
       | [] => None
       | c :: s' =>
           match split_first needle s' with
           | Some (before, after) => Some (c :: before, after)
           | None => None
           end
       end.

(** The same for the last occurrence. *)
Fixpoint split_last (needle s : JSString) : option (JSString * JSString) :=
  match s with
  | [] => None
  | c :: s' =>
      match split_last needle s' with
      | Some (before, after) => Some (c :: before, after)
      | None =>
          if startsWith s needle then Some ([], drop (length needle) s)
          else None
      end
  end.

(** [t.replace(/(<li>.*<\/li>)/s, '<ul>$1</ul>')]: the expression is not
    global and its dot matches everything, so the one match runs from the
    first [<li>] to the last [</li>] after it. *)
Definition list_wrap (s : JSString) : JSString :=
  match split_first (js "<li>") s with
  | Some (before, after) =>
      match split_last (js "</li>") after with
      | Some (items, rest) =>
          before ++ js "<ul><li>" ++ items ++ js "</li></ul>" ++ rest
      | None => s
      end
  | None => s
  end.

(** [formatText(text)], on a string; [text || ''] is the string itself. *)
Definition formatText (text : JSString) : JSString :=
  list_wrap (list_items LineStart (line_breaks (strong false text))).

(** No code unit of [s] is a line feed. *)
Definition no_line_feed (s : JSString) : bool :=
  forallb (fun c => negb (N.eqb c 10)) s.

(** A character [formatText] has no use for: not a star, not a line
    terminator, not an opening angle bracket. *)
Definition is_plain (c : N) : bool :=
  (negb (N.eqb c 42) && negb (is_line_terminator c) && negb (N.eqb c 60))%bool.

(** ** Names for what the further properties speak about *)

(** The elements [displayResults] writes to. *)
Definition result_panes : list string :=
  ["resultsSection"; "answerContent"; "documentsContainer"; "docsCard"].

(** What the user typed: [input.value], or nothing on a page without the
    field. *)
Definition typed (w : World) : JSString :=
  match dom w !! "queryInput" with
  | Some input => value input
  | None => []
  end.


(** The buttons that turn pages and zoom. *)
Definition navigation_buttons : list (string * Handler) :=
  [("prevPageBtn", PrevPage); ("nextPageBtn", NextPage);
   ("zoomInBtn", ZoomIn); ("zoomOutBtn", ZoomOut)].

(** The four stretches of [renderPageAccurately(num)], when every promise
    is resolved. *)
Definition render_to_completion (num : Z) (w : World) : World :=
  renderPage_gotText num
    (renderPage_painted num
       (renderPage_gotPage num (renderPageAccurately num w))).

(** [initializeAccuratePDFViewer] from the arrival of the document to its
    end, when every promise is resolved. *)
Definition load_to_completion (doc : PdfDoc) (w : World) : World :=
  initialize_rendered
    (renderPage_gotText 1
       (renderPage_painted 1 (renderPage_gotPage 1 (initialize_loaded doc w)))).

(** The request [generateFollowUpFromPDF] makes for the selection
    [selected]. *)
Definition follow_up_request (selected : JSString) (a : App) : Effect :=
  Fetch "/api/followup" "POST"
    [("selected_text", [Lit selected]);
     ("context", [Lit (js "Selected from PDF: ");
                  Lit (currentDocumentName a);
                  Lit (js ", Page "); Integer (pageNum a)]);
     ("document_name", [Lit (currentDocumentName a)])].

(** ** A page and a session, for evaluation *)

Module Session.

(** Modelled from the spec: the page template is not among the sources.
    This page has one element for each selector the controller looks up
    outside the viewer, with the result panels hidden as [hideResults]
    leaves them. *)
Definition page : gmap string Element :=
  list_to_map
    [ ("toasts", blank);
      ("queryInput", blank);
      ("askButton", set_content [TextNode (lit "Ask")] blank);
      ("loadingOverlay", set_hidden true blank);
      (".loading-text", blank);
      ("resultsSection", set_hidden true blank);
      ("answerContent", blank);
      ("documentsContainer", blank);
      ("docsCard", set_hidden true blank);
      ("detailCard", set_hidden true blank);
      ("detailToggle", set_content [TextNode DETAILS_LABEL] blank);
      ("detailContent", blank);
      ("snippetModal", set_hidden true blank);
      ("modalClose", blank);
      ("modalTitle", blank);
      ("modalSubtitle", blank);
      ("modalMessage", blank) ].

Definition handbook : Source :=
  mkSource (js "handbook.pdf") (js "Attendance rules") (js "75% attendance")
           0.875%float false.

Definition news : Source :=
  mkSource (js "vitap.ac.in") (js "Admissions") (js "Admissions open")
           0.5%float true.

Definition reply : QueryResult :=
  mkQueryResult (Some (js "75% attendance is required."))
                (Some (js "See the handbook.")) (Some [handbook; news])
                (Some (js "From the handbook")) None.

(** The same body without its [answer] field. *)
Definition reply_without_answer : QueryResult :=
  mkQueryResult None (Some (js "See the handbook.")) (Some [handbook; news])
                (Some (js "From the handbook")) None.

Definition started : World := init page.

(** The user typed a question and pressed the ask button. *)
Definition asked : World :=
  processQuery (update "queryInput" (set_value (js " attendance? ")) started).

(** The backend answered. *)
Definition answered : World :=
  processQuery_resume [TextNode (lit "Ask")] (js "0.4")
                      (Responded true reply) asked.

(** The handbook's card was clicked and its three pages were loaded; the
    first page is on screen and the controls are bound. *)
Definition viewing : World :=
  let w := card_clicked (doc_card handbook) answered in
  let w := startViewer w in
  let w := initialize_loaded (mkPdfDoc 3) w in
  let w := renderPage_gotPage 1 w in
  let w := renderPage_painted 1 w in
  let w := renderPage_gotText 1 w in
  initialize_rendered w.

(** The reader went to page 2 and zoomed in; page 2 is still rendering. *)
Definition reading : World :=
  click "zoomInBtn" (click "nextPageBtn" viewing).

End Session.

(** * Properties *)

(** ** The JavaScript primitives, on examples *)

Example Math_round_half_up : Math_round 2.5%float = 3%float.
Proof. reflexivity. Qed.

Example Math_round_negative_half : Math_round (-2.5)%float = (-2)%float.
Proof. reflexivity. Qed.

Example Math_round_percent : Math_round (0.875 * 100)%float = 88%float.
Proof. reflexivity. Qed.

(** The product is a double, not a decimal: 0.285 is stored as
    0x1.23d70a3d70a3dp-2, a little below, and its percentage is 28. *)
Example Math_round_of_a_double_product :
  Math_round (0x1.23d70a3d70a3dp-2 * 100)%float = 28%float.
Proof. reflexivity. Qed.

Example Math_min_of_NaN : PrimFloat.is_nan (Math_min nan 3.0) = true.
Proof. reflexivity. Qed.

Example trim_example : trim (js "  what is x? ") = js "what is x?".
Proof. reflexivity. Qed.

Example includes_example : includes (js "abcabd") (js "abd") = true.
Proof. reflexivity. Qed.

(** ** The example session *)

Example asked_posts_the_query :
  effects Session.asked =
    [Fetch "/api/status" "GET" []; SetTimeout ToastExpiry 3000;
     Fetch "/api/query" "POST" [("query", [Lit (js "attendance?")])]].
Proof. vm_compute. reflexivity. Qed.

Example reading_page_and_scale :
  pageNum (app Session.reading) = 2
  /\ scale (app Session.reading) = 1.25%float
  /\ pageRendering (app Session.reading) = true
  /\ pageNumPending (app Session.reading) = Some 2.
Proof. vm_compute. repeat split. Qed.

(** ** What a step leaves alone *)

Lemma app_update (w : World) id f : app (update id f w) = app w.
Proof. unfold update. destruct (dom w !! id); reflexivity. Qed.

Lemma effects_update (w : World) id f : effects (update id f w) = effects w.
Proof. unfold update. destruct (dom w !! id); reflexivity. Qed.

Lemma app_log (w : World) e : app (log e w) = app w.
Proof. reflexivity. Qed.

Lemma dom_log (w : World) e : dom (log e w) = dom w.
Proof. reflexivity. Qed.

Lemma effects_log (w : World) e : effects (log e w) = effects w ++ [e].
Proof. reflexivity. Qed.

Lemma dom_with_app (w : World) f : dom (with_app f w) = dom w.
Proof. reflexivity. Qed.

Lemma effects_with_app (w : World) f : effects (with_app f w) = effects w.
Proof. reflexivity. Qed.

Lemma app_with_app (w : World) f : app (with_app f w) = f (app w).
Proof. reflexivity. Qed.

Lemma dom_update_eq (w : World) id f e :
  dom w !! id = Some e -> dom (update id f w) !! id = Some (f e).
Proof.
  intros H. unfold update. rewrite H. cbn. apply lookup_insert_eq.
Qed.

Lemma dom_update_ne (w : World) id id' f :
  id <> id' -> dom (update id f w) !! id' = dom w !! id'.
Proof.
  intros H. unfold update. destruct (dom w !! id); [|reflexivity].
  cbn. apply lookup_insert_ne, H.
Qed.


Lemma app_toast (w : World) message type : app (toast message type w) = app w.
Proof.
  unfold toast, toast_for. destruct (dom w !! "toasts"); [|reflexivity].
  rewrite app_log. apply app_update.
Qed.

Lemma dom_toast_ne (w : World) message type id :
  id <> "toasts" -> dom (toast message type w) !! id = dom w !! id.
Proof.
  intros H. unfold toast, toast_for.
  destruct (dom w !! "toasts"); [|reflexivity].
  rewrite dom_log. apply dom_update_ne. congruence.
Qed.

(** A toast is a timer and nothing else: no request, no render. *)
Lemma requests_toast (w : World) message type : requests (toast message type w) = requests w.
Proof.
  unfold requests, toast, toast_for.
  destruct (dom w !! "toasts"); [|reflexivity].
  rewrite effects_log, effects_update, List.filter_app. cbn.
  apply app_nil_r.
Qed.

Lemma renders_toast (w : World) message type : renders (toast message type w) = renders w.
Proof.
  unfold renders, toast, toast_for.
  destruct (dom w !! "toasts"); [|reflexivity].
  rewrite effects_log, effects_update, omap_app. cbn.
  apply app_nil_r.
Qed.

(** On a page with a toast container the notice is appended to it. *)
Lemma toast_shown (w : World) message type wrap :
  dom w !! "toasts" = Some wrap ->
  toasts (toast message type w) = content wrap ++ [ToastNode type message].
Proof.
  intros H. unfold toasts, toast, toast_for. rewrite H, dom_log.
  rewrite (dom_update_eq _ _ _ _ H). reflexivity.
Qed.

Create Rewrite HintDb world.

#[local] Hint Rewrite app_update effects_update app_log dom_log effects_log
  dom_with_app effects_with_app app_with_app app_toast : world.

(** ** Empty questions *)

(** C2: when the trimmed question is empty (or the page has no question
    field), [processQuery] only shows the warning: no request is issued, in
    fact nothing leaves the page but the toast's timer; every field of the
    controller, the current query and the current result among them, keeps
    its value; every element but the toast container keeps its state; and on
    a page with a toast container the warning is appended to it. *)
Theorem processQuery_empty_question (w : World) :
  question w = [] ->
  processQuery w = showAlert (lit "Please enter a question.") warn w
  /\ requests (processQuery w) = requests w
  /\ app (processQuery w) = app w
  /\ (forall id, id <> "toasts" -> dom (processQuery w) !! id = dom w !! id)
  /\ (forall wrap, dom w !! "toasts" = Some wrap ->
      toasts (processQuery w) =
        content wrap ++ [ToastNode warn (lit "Please enter a question.")]).
Proof.
  intros Hq.
  assert (E : processQuery w = showAlert (lit "Please enter a question.") warn w).
  { unfold processQuery. rewrite Hq. reflexivity. }
  rewrite E. unfold showAlert. split; [reflexivity|].
  split; [apply requests_toast|].
  split; [apply app_toast|].
  split.
  - intros id Hid. apply dom_toast_ne, Hid.
  - intros wrap Hwrap. apply toast_shown, Hwrap.
Qed.

Lemma processQuery_empty_question_witness :
  question Session.started = []
  /\ requests (processQuery Session.started) = requests Session.started
  /\ toasts (processQuery Session.started) =
       toasts Session.started
       ++ [ToastNode warn (lit "Please enter a question.")].
Proof.
  assert (Hq : question Session.started = []) by (vm_compute; reflexivity).
  destruct (processQuery_empty_question Session.started Hq)
    as (_ & Hreq & _ & _ & Hshown).
  split; [exact Hq|]. split; [exact Hreq|].
  assert (Hwrap : exists wrap, dom Session.started !! "toasts" = Some wrap
                    /\ toasts Session.started = content wrap).
  { eexists. split; vm_compute; reflexivity. }
  destruct Hwrap as (wrap & Hwrap & ->).
  apply Hshown, Hwrap.
Defined.

(** A question of blanks only is empty too, and a question with text is
    posted. *)
Example blank_question_is_empty :
  question (update "queryInput" (set_value (js "   ")) Session.started) = [].
Proof. vm_compute. reflexivity. Qed.

Example real_question_is_posted :
  requests Session.asked =
    requests Session.started
    ++ [Fetch "/api/query" "POST" [("query", [Lit (js "attendance?")])]].
Proof. vm_compute. reflexivity. Qed.

(** ** Turning pages *)

(** What a render request does to the controller's fields: it is recorded
    when a render is in flight, it fails at once without a document, and it
    takes the in-flight flag otherwise. *)
Lemma app_renderPageAccurately (num : Z) (w : World) :
  app (renderPageAccurately num w) =
    if pageRendering (app w) then set_pageNumPending (Some num) (app w)
    else match pdfDoc (app w) with
         | None => set_pageRendering false (set_pageRendering true (app w))
         | Some _ => set_pageRendering true (app w)
         end.
Proof.
  unfold renderPageAccurately, renderPage_catch, showAlert.
  destruct (pageRendering (app w)); [reflexivity|].
  cbn. destruct (pdfDoc (app w)); autorewrite with world; reflexivity.
Qed.

Lemma app_clearPDFSelection (w : World) :
  app (clearPDFSelection w) = set_selectedText [] (app w).
Proof. unfold clearPDFSelection. autorewrite with world. reflexivity. Qed.

#[local] Hint Rewrite app_renderPageAccurately app_clearPDFSelection : world.

(** Case analysis on the tests a handler makes, after rewriting with the
    frame equations. *)
Ltac handler_cases :=
  repeat (autorewrite with world; cbn;
          try match goal with
              | |- context [if ?b then _ else _] => destruct b eqn:?
              | |- context [match pdfDoc ?a with _ => _ end] =>
                  destruct (pdfDoc a) eqn:?
              end).

Lemma pdfDoc_renderPageAccurately (num : Z) (w : World) :
  pdfDoc (app (renderPageAccurately num w)) = pdfDoc (app w).
Proof. handler_cases; congruence. Qed.

Lemma pageNum_renderPageAccurately (num : Z) (w : World) :
  pageNum (app (renderPageAccurately num w)) = pageNum (app w).
Proof. handler_cases; reflexivity. Qed.

Lemma scale_renderPageAccurately (num : Z) (w : World) :
  scale (app (renderPageAccurately num w)) = scale (app w).
Proof. handler_cases; reflexivity. Qed.

Lemma pdfDoc_turn (w : World) (a : PageAction) :
  pdfDoc (app (turn w a)) = pdfDoc (app w).
Proof.
  destruct a; cbn; unfold prevBtn_onclick, nextBtn_onclick,
    settle, window_onerror, showAlert; handler_cases; congruence.
Qed.

Lemma pageNum_turn (w : World) (doc : PdfDoc) (a : PageAction) :
  pdfDoc (app w) = Some doc ->
  pageNum (app (turn w a)) =
    match a with
    | Back => if pageNum (app w) <=? 1 then pageNum (app w)
              else pageNum (app w) - 1
    | Forward => if numPages doc <=? pageNum (app w) then pageNum (app w)
                 else pageNum (app w) + 1
    end.
Proof.
  intros Hdoc.
  destruct a; cbn; unfold prevBtn_onclick, nextBtn_onclick,
    settle, window_onerror, showAlert; rewrite ?Hdoc;
    handler_cases; congruence.
Qed.

Lemma turns_in_range (doc : PdfDoc) (actions : list PageAction) (w : World) :
  pdfDoc (app w) = Some doc ->
  1 <= pageNum (app w) <= numPages doc ->
  pdfDoc (app (fold_left turn actions w)) = Some doc
  /\ 1 <= pageNum (app (fold_left turn actions w)) <= numPages doc.
Proof.
  revert w. induction actions as [|a actions IH]; intros w Hdoc Hrange.
  - split; assumption.
  - cbn [fold_left]. apply IH.
    + rewrite pdfDoc_turn. exact Hdoc.
    + rewrite (pageNum_turn w doc a Hdoc).
      destruct a.
      * destruct (Z.leb_spec (pageNum (app w)) 1); lia.
      * destruct (Z.leb_spec (numPages doc) (pageNum (app w))); lia.
Qed.

(** C5: on the last page of a loaded document a click on Next only shows
    the notice: the handler returns normally, every field of the controller
    (page number, in-flight flag and pending page among them) keeps its
    value, no render is started, and on a page with a toast container the
    info notice is appended to it. *)
Theorem next_on_last_page (w : World) (doc : PdfDoc) :
  pdfDoc (app w) = Some doc ->
  pageNum (app w) = numPages doc ->
  nextBtn_onclick w = Normal (toast (lit "Already on last page") info w)
  /\ pageNum (app (turn w Forward)) = pageNum (app w)
  /\ app (turn w Forward) = app w
  /\ renders (turn w Forward) = renders w
  /\ (forall wrap, dom w !! "toasts" = Some wrap ->
      toasts (turn w Forward) =
        content wrap ++ [ToastNode info (lit "Already on last page")]).
Proof.
  intros Hdoc Hlast.
  assert (E : nextBtn_onclick w
              = Normal (toast (lit "Already on last page") info w)).
  { unfold nextBtn_onclick. rewrite Hdoc, Hlast, Z.leb_refl. reflexivity. }
  cbn [turn]. rewrite E. cbn [settle].
  split; [reflexivity|]. split; [rewrite app_toast; reflexivity|].
  split; [apply app_toast|]. split; [apply renders_toast|].
  intros wrap Hwrap. apply toast_shown, Hwrap.
Qed.

Lemma next_on_last_page_witness :
  pageNum (app (turn (turn (turn Session.viewing Forward) Forward) Forward)) = 3
  /\ renders (turn (turn (turn Session.viewing Forward) Forward) Forward)
     = renders (turn (turn Session.viewing Forward) Forward).
Proof.
  pose (w := turn (turn Session.viewing Forward) Forward).
  assert (Hdoc : pdfDoc (app w) = Some (mkPdfDoc 3)) by (vm_compute; reflexivity).
  assert (Hlast : pageNum (app w) = numPages (mkPdfDoc 3))
    by (vm_compute; reflexivity).
  destruct (next_on_last_page w (mkPdfDoc 3) Hdoc Hlast)
    as (_ & Hpage & _ & Hrenders & _).
  split; [|exact Hrenders].
  fold w. rewrite Hpage. vm_compute. reflexivity.
Defined.

(** A click on Next before the last page does turn the page. *)
Example next_before_last_page :
  pageNum (app (turn Session.viewing Forward)) = 2
  /\ renders (turn Session.viewing Forward) = renders Session.viewing ++ [2].
Proof. vm_compute. split; reflexivity. Qed.

(** C10: with a document of at least one page loaded and the page number
    at 1, as [initializeAccuratePDFViewer] leaves it, every sequence of
    clicks on Prev and Next keeps the page number between 1 and [numPages];
    and wherever such a sequence ends on page 1, a click on Prev only shows
    the notice: the controller's fields keep their values, no render is
    started, and on a page with a toast container the info notice is
    appended to it. *)
Theorem page_number_in_range (w : World) (doc : PdfDoc)
    (actions : list PageAction) :
  pdfDoc (app w) = Some doc ->
  pageNum (app w) = 1 ->
  1 <= numPages doc ->
  let w' := fold_left turn actions w in
  1 <= pageNum (app w') <= numPages doc
  /\ (pageNum (app w') = 1 ->
      turn w' Back = toast (lit "Already on first page") info w'
      /\ app (turn w' Back) = app w'
      /\ renders (turn w' Back) = renders w'
      /\ (forall wrap, dom w' !! "toasts" = Some wrap ->
          toasts (turn w' Back) =
            content wrap ++ [ToastNode info (lit "Already on first page")])).
Proof.
  intros Hdoc Hfirst Hpages w'.
  split.
  - apply turns_in_range; [exact Hdoc | lia].
  - intros Hone.
    assert (E : turn w' Back = toast (lit "Already on first page") info w').
    { cbn [turn]. unfold prevBtn_onclick. rewrite Hone. reflexivity. }
    rewrite E. split; [reflexivity|]. split; [apply app_toast|].
    split; [apply renders_toast|].
    intros wrap Hwrap. apply toast_shown, Hwrap.
Qed.

Lemma page_number_in_range_witness :
  1 <= pageNum (app (fold_left turn [Forward; Forward; Forward; Back; Back;
                                     Back; Back] Session.viewing)) <= 3.
Proof.
  apply (page_number_in_range Session.viewing (mkPdfDoc 3)
           [Forward; Forward; Forward; Back; Back; Back; Back]).
  - vm_compute; reflexivity.
  - vm_compute; reflexivity.
  - cbn. lia.
Defined.

Example pages_visited :
  map (fun actions => pageNum (app (fold_left turn actions Session.viewing)))
      [[Back]; [Forward]; [Forward; Forward]; [Forward; Forward; Forward];
       [Forward; Forward; Forward; Back]]
  = [1; 2; 3; 3; 2].
Proof. vm_compute. reflexivity. Qed.

(** ** Zooming *)

Lemma scale_zoom_epilogue (w : World) :
  scale (app (zoom_epilogue w)) = scale (app w).
Proof. unfold zoom_epilogue. handler_cases; reflexivity. Qed.

Lemma scale_zoom (w : World) (a : ZoomAction) :
  scale (app (zoom w a)) =
    match a with
    | Increment => Math_min (scale (app w) + 0.25) 3.0
    | Decrement => Math_max (scale (app w) - 0.25) 0.5
    end%float.
Proof.
  destruct a; cbn [zoom]; unfold zoomInBtn_onclick, zoomOutBtn_onclick;
    rewrite scale_zoom_epilogue; reflexivity.
Qed.

(** Closes a goal [In x l] for a double [x] and a list [l] of doubles that
    are both given by literals. *)
Ltac find_level := cbn [In]; repeat first [left; reflexivity | right].

Lemma zoom_levels_closed (s : float) (a : ZoomAction) :
  In s zoom_levels ->
  In (match a with
      | Increment => Math_min (s + 0.25) 3.0
      | Decrement => Math_max (s - 0.25) 0.5
      end%float) zoom_levels.
Proof.
  unfold zoom_levels. intros H. cbn [In] in H.
  repeat (destruct H as [<-|H]; [destruct a; find_level|]).
  contradiction.
Qed.

Lemma zoom_levels_bounded (s : float) :
  In s zoom_levels ->
  between 0.5 3.0 s = true /\ between 50 300 (Math_round (s * 100)%float) = true.
Proof.
  unfold zoom_levels. intros H. cbn [In] in H.
  repeat (destruct H as [<-|H]; [split; reflexivity|]).
  contradiction.
Qed.

Lemma zooms_on_levels (actions : list ZoomAction) (w : World) :
  In (scale (app w)) zoom_levels ->
  In (scale (app (fold_left zoom actions w))) zoom_levels.
Proof.
  revert w. induction actions as [|a actions IH]; intros w H.
  - exact H.
  - cbn [fold_left]. apply IH. rewrite scale_zoom.
    apply zoom_levels_closed, H.
Qed.

(** C3: from a scale of 1.0, after any sequence of clicks on the zoom
    buttons the scale is a double between 0.5 and 3.0 and the percentage
    the viewer shows for it is between 50 and 300; from there a click on
    zoom-in sets the scale to [Math.min(scale + 0.25, 3.0)] and a click on
    zoom-out to [Math.max(scale - 0.25, 0.5)]. *)
Theorem zoom_scale_clamped (w : World) (actions : list ZoomAction) :
  scale (app w) = 1.0%float ->
  let w' := fold_left zoom actions w in
  between 0.5 3.0 (scale (app w')) = true
  /\ between 50 300 (zoomPercent w') = true
  /\ scale (app (zoom w' Increment)) = Math_min (scale (app w') + 0.25) 3.0
  /\ scale (app (zoom w' Decrement)) = Math_max (scale (app w') - 0.25) 0.5.
Proof.
  intros Hone w'.
  assert (Hlevel : In (scale (app w')) zoom_levels).
  { apply zooms_on_levels. rewrite Hone. unfold zoom_levels. find_level. }
  destruct (zoom_levels_bounded _ Hlevel) as [Hscale Hpercent].
  split; [exact Hscale|]. split; [exact Hpercent|].
  split; apply scale_zoom.
Qed.

Lemma zoom_scale_clamped_witness :
  between 0.5 3.0
    (scale (app (fold_left zoom (repeat Increment 12 ++ repeat Decrement 3)
                           Session.viewing))) = true.
Proof.
  apply (zoom_scale_clamped Session.viewing
           (repeat Increment 12 ++ repeat Decrement 3)).
  vm_compute. reflexivity.
Defined.

Example zoom_in_stops_at_three :
  map (fun n => scale (app (fold_left zoom (repeat Increment n) Session.viewing)))
      [0; 1; 7; 8; 9; 20]%nat
  = [1.0; 1.25; 2.75; 3.0; 3.0; 3.0]%float.
Proof. vm_compute. reflexivity. Qed.

Example zoom_out_stops_at_half :
  map (fun n => scale (app (fold_left zoom (repeat Decrement n) Session.viewing)))
      [1; 2; 3; 20]%nat
  = [0.75; 0.5; 0.5; 0.5]%float.
Proof. vm_compute. reflexivity. Qed.

Example zoom_display_after_zooming_out :
  zoomPercent (fold_left zoom (repeat Decrement 5) Session.viewing) = 50%float.
Proof. vm_compute. reflexivity. Qed.

(** ** Render requests during a render *)

Lemma coalesced_last (pending : option Z) (earlier : list Z) (n : Z) :
  coalesced pending (earlier ++ [n]) = Some n.
Proof. unfold coalesced. rewrite fold_left_app. reflexivity. Qed.

Lemma requests_during_render (requested : list Z) (w : World) :
  pageRendering (app w) = true ->
  effects (request_pages requested w) = effects w
  /\ dom (request_pages requested w) = dom w
  /\ pdfDoc (app (request_pages requested w)) = pdfDoc (app w)
  /\ pageRendering (app (request_pages requested w)) = true
  /\ pageNumPending (app (request_pages requested w))
     = coalesced (pageNumPending (app w)) requested.
Proof.
  revert w. induction requested as [|n requested IH]; intros w Hflag.
  - repeat split. exact Hflag.
  - assert (E : renderPageAccurately n w
                = with_app (set_pageNumPending (Some n)) w).
    { unfold renderPageAccurately. rewrite Hflag. reflexivity. }
    unfold request_pages, coalesced in *. cbn [fold_left]. rewrite E.
    destruct (IH (with_app (set_pageNumPending (Some n)) w) Hflag)
      as (He & Hd & Hdoc & Hf & Hp).
    repeat split; assumption.
Qed.

(** The end of a render with a document loaded: the pending page, if there
    is one, is the one render started, and the slot is empty afterwards. *)
Lemma render_completion (num : Z) (doc : PdfDoc) (w : World) :
  pdfDoc (app w) = Some doc ->
  effects (renderPage_gotText num w)
  = effects w ++ match pageNumPending (app w) with
                 | Some n => [GetPage n]
                 | None => []
                 end
  /\ pageNumPending (app (renderPage_gotText num w)) = None
  /\ pageRendering (app (renderPage_gotText num w))
     = match pageNumPending (app w) with
       | Some _ => true
       | None => false
       end.
Proof.
  intros Hdoc. unfold renderPage_gotText.
  remember (with_app (set_pageRendering false)
              (update "pdfDisplayContainer" fillTextLayer w)) as w1 eqn:Hw1.
  assert (Hdoc1 : pdfDoc (app w1) = Some doc)
    by (rewrite Hw1; autorewrite with world; exact Hdoc).
  assert (Hpend1 : pageNumPending (app w1) = pageNumPending (app w))
    by (rewrite Hw1; autorewrite with world; reflexivity).
  assert (Heff1 : effects w1 = effects w)
    by (rewrite Hw1; autorewrite with world; reflexivity).
  assert (Hflag1 : pageRendering (app w1) = false)
    by (rewrite Hw1; autorewrite with world; reflexivity).
  clear Hw1.
  rewrite Hpend1.
  destruct (pageNumPending (app w)) as [n|] eqn:Hpend.
  - assert (E : renderPageAccurately n w1
                = log (GetPage n) (with_app (set_pageRendering true) w1)).
    { unfold renderPageAccurately. rewrite Hflag1. cbn. rewrite Hdoc1.
      reflexivity. }
    rewrite E.
    match goal with
    | |- context [dom ?x !! "pageInfoDisplay"] =>
        destruct (dom x !! "pageInfoDisplay")
    end; cbn; rewrite ?Hdoc1; autorewrite with world; cbn;
      rewrite ?Heff1; repeat split; reflexivity.
  - rewrite app_nil_r.
    destruct (dom w1 !! "pageInfoDisplay"); rewrite ?Hdoc1;
      autorewrite with world; cbn; rewrite ?Heff1, ?Hflag1, ?Hpend1, ?Hpend;
      repeat split; reflexivity.
Qed.

(** C4: while a render is in flight (and the document stays loaded), the
    requests [requested] start no render and issue nothing: each only
    overwrites the pending slot, which ends up holding the last of them.
    When the render in flight completes, the page in the slot, if any, is
    the only one whose render is started, the slot is emptied, and the
    in-flight flag is held by that render.  So of the requests
    [earlier ++ [n]] only [n] is rendered. *)
Theorem render_requests_coalesce (w : World) (doc : PdfDoc)
    (requested : list Z) (num : Z) :
  pageRendering (app w) = true ->
  pdfDoc (app w) = Some doc ->
  let asked := request_pages requested w in
  let finished := renderPage_gotText num asked in
  let pending := coalesced (pageNumPending (app w)) requested in
  (effects asked = effects w
   /\ pageRendering (app asked) = true
   /\ pageNumPending (app asked) = pending)
  /\ (renders finished
      = renders w ++ match pending with Some n => [n] | None => [] end
      /\ pageNumPending (app finished) = None
      /\ pageRendering (app finished)
         = match pending with Some _ => true | None => false end)
  /\ (forall earlier n, requested = earlier ++ [n] ->
      pageNumPending (app asked) = Some n
      /\ renders finished = renders w ++ [n]).
Proof.
  intros Hflag Hdoc asked finished pending.
  destruct (requests_during_render requested w Hflag)
    as (He & _ & Hd & Hf & Hp).
  fold asked in He, Hd, Hf, Hp. fold pending in Hp.
  assert (Hdoc' : pdfDoc (app asked) = Some doc) by congruence.
  destruct (render_completion num doc asked Hdoc') as (He2 & Hp2 & Hf2).
  fold finished in He2, Hp2, Hf2. rewrite Hp in He2, Hf2.
  assert (Hrenders : renders finished
            = renders w ++ match pending with Some n => [n] | None => [] end).
  { unfold renders. rewrite He2, He, omap_app. f_equal.
    destruct pending; reflexivity. }
  split; [repeat split; assumption|].
  split; [repeat split; assumption|].
  intros earlier n ->.
  assert (Hlast : pending = Some n) by apply coalesced_last.
  rewrite Hp, Hrenders, Hlast. split; reflexivity.
Qed.

Lemma render_requests_coalesce_witness :
  renders (renderPage_gotText 2 (request_pages [3; 1; 3] Session.reading))
  = renders Session.reading ++ [3].
Proof.
  assert (Hflag : pageRendering (app Session.reading) = true)
    by (vm_compute; reflexivity).
  assert (Hdoc : pdfDoc (app Session.reading) = Some (mkPdfDoc 3))
    by (vm_compute; reflexivity).
  destruct (render_requests_coalesce Session.reading (mkPdfDoc 3) [3; 1; 3] 2
              Hflag Hdoc) as (_ & _ & Hlast).
  apply (Hlast [3; 1] 3 eq_refl).
Defined.

(** With no render in flight a request starts one at once. *)
Example request_when_idle :
  renders (renderPageAccurately 2 Session.viewing) = renders Session.viewing ++ [2]
  /\ pageNumPending (app (renderPageAccurately 2 Session.viewing)) = None.
Proof. vm_compute. split; reflexivity. Qed.

(** A render that is rejected gives the flag back and leaves the slot as it
    is. *)
Example rejected_render_keeps_the_slot :
  let w := renderPage_rejected (Error (js "Invalid page request"))
             Session.reading in
  pageRendering (app w) = false
  /\ pageNumPending (app w) = Some 2
  /\ renders w = renders Session.reading.
Proof. vm_compute. repeat split. Qed.

Example pages_rendered_in_the_session :
  renders (renderPage_gotText 2 (request_pages [3; 1; 3] Session.reading))
  = [1; 2; 3].
Proof. vm_compute. reflexivity. Qed.

(** ** Looking elements up after updates *)

Lemma dom_update (id id' : string) (f : Element -> Element) (w : World) :
  dom (update id f w) !! id' =
    if decide (id = id') then f <$> dom w !! id' else dom w !! id'.
Proof.
  destruct (decide (id = id')) as [<-|Hne].
  - unfold update. destruct (dom w !! id) as [e|] eqn:E.
    + cbn. rewrite lookup_insert_eq. reflexivity.
    + rewrite E. reflexivity.
  - apply dom_update_ne, Hne.
Qed.

(** Pushes a lookup through the updates, logs and field assignments made
    since; the ids are literals, so every comparison is settled. *)
Ltac lookups :=
  repeat (rewrite ?dom_log, ?dom_with_app, ?dom_update;
          repeat match goal with
                 | |- context [decide (?a = ?b)] =>
                     destruct (decide (a = b)); [try discriminate|try congruence]
                 end).

(** ** The detailed explanation, shown and hidden *)

Section DetailToggle.

(** A result is current and the page has the detail card and its button. *)
Variables (w : World) (result : QueryResult) (card btn : Element).
Hypothesis Hresult : currentResult (app w) = Some result.
Hypothesis Hcard : dom w !! "detailCard" = Some card.
Hypothesis Hbtn : dom w !! "detailToggle" = Some btn.

Lemma toggle_shows :
  detailVisible (app w) = false ->
  currentResult (app (toggleDetailedExplanation w)) = Some result
  /\ dom (toggleDetailedExplanation w) !! "detailCard"
     = Some (set_hidden false card)
  /\ dom (toggleDetailedExplanation w) !! "detailToggle"
     = Some (set_content [TextNode HIDE_DETAILS_LABEL] btn)
  /\ detailVisible (app (toggleDetailedExplanation w)) = true.
Proof.
  intros Hvis. unfold toggleDetailedExplanation.
  rewrite Hresult, Hcard, Hbtn, Hvis.
  split; [autorewrite with world; exact Hresult|].
  split; [lookups; rewrite Hcard; reflexivity|].
  split; [lookups; rewrite Hbtn; reflexivity|].
  reflexivity.
Qed.

Lemma toggle_hides :
  detailVisible (app w) = true ->
  dom (toggleDetailedExplanation w) !! "detailCard"
  = Some (set_hidden true card)
  /\ dom (toggleDetailedExplanation w) !! "detailToggle"
     = Some (set_content [TextNode DETAILS_LABEL] btn)
  /\ detailVisible (app (toggleDetailedExplanation w)) = false.
Proof.
  intros Hvis. unfold toggleDetailedExplanation.
  rewrite Hresult, Hcard, Hbtn, Hvis.
  split; [lookups; rewrite Hcard; reflexivity|].
  split; [lookups; rewrite Hbtn; reflexivity|].
  reflexivity.
Qed.

End DetailToggle.

(** C6: from a state with the detail panel hidden, the Details button
    showing the label [hideResults] gives it and [detailVisible] false, two
    runs of [toggleDetailedExplanation] end with the panel hidden, that
    label on the button and [detailVisible] false.  When a result is
    current the first run does open the panel (panel shown, label "Hide
    Details", flag true); without one both runs change nothing. *)
Theorem toggle_details_twice (w : World) :
  detail_panel_hidden w ->
  details_button_shows DETAILS_LABEL w ->
  detailVisible (app w) = false ->
  let once := toggleDetailedExplanation w in
  let twice := toggleDetailedExplanation once in
  (detail_panel_hidden twice
   /\ details_button_shows DETAILS_LABEL twice
   /\ detailVisible (app twice) = false)
  /\ (forall result, currentResult (app w) = Some result ->
      ~ detail_panel_hidden once
      /\ details_button_shows HIDE_DETAILS_LABEL once
      /\ detailVisible (app once) = true)
  /\ (currentResult (app w) = None -> once = w).
Proof.
  intros (card & Hcard & Hhidden) (btn & Hbtn & Hlabel) Hvis once twice.
  destruct (currentResult (app w)) as [result|] eqn:Hres.
  - destruct (toggle_shows w result card btn Hres Hcard Hbtn Hvis)
      as (Hres1 & Hcard1 & Hbtn1 & Hvis1).
    fold once in Hres1, Hcard1, Hbtn1, Hvis1.
    destruct (toggle_hides once result _ _ Hres1 Hcard1 Hbtn1 Hvis1)
      as (Hcard2 & Hbtn2 & Hvis2).
    fold twice in Hcard2, Hbtn2, Hvis2.
    split; [|split].
    + split; [|split].
      * eexists. split; [exact Hcard2|reflexivity].
      * eexists. split; [exact Hbtn2|reflexivity].
      * exact Hvis2.
    + intros result' _. split; [|split].
      * intros (card' & Hcard' & Hhidden'). rewrite Hcard1 in Hcard'.
        injection Hcard' as <-. discriminate Hhidden'.
      * eexists. split; [exact Hbtn1|reflexivity].
      * exact Hvis1.
    + discriminate.
  - assert (E : once = w).
    { unfold once, toggleDetailedExplanation. rewrite Hres. reflexivity. }
    assert (E2 : twice = w).
    { unfold twice. rewrite E. unfold toggleDetailedExplanation.
      rewrite Hres. reflexivity. }
    split; [|split].
    + rewrite E2. split; [|split].
      * exists card. split; assumption.
      * exists btn. split; assumption.
      * exact Hvis.
    + discriminate.
    + intros _. exact E.
Qed.

Lemma toggle_details_twice_witness :
  detail_panel_hidden
    (toggleDetailedExplanation (toggleDetailedExplanation Session.answered))
  /\ ~ detail_panel_hidden (toggleDetailedExplanation Session.answered).
Proof.
  assert (Hpanel : detail_panel_hidden Session.answered).
  { eexists. split; vm_compute; reflexivity. }
  assert (Hlabel : details_button_shows DETAILS_LABEL Session.answered).
  { eexists. split; vm_compute; reflexivity. }
  assert (Hvis : detailVisible (app Session.answered) = false)
    by (vm_compute; reflexivity).
  destruct (toggle_details_twice Session.answered Hpanel Hlabel Hvis)
    as ((Htwice & _ & _) & Honce & _).
  split; [exact Htwice|].
  apply (Honce Session.reply). vm_compute. reflexivity.
Defined.

Example details_after_one_toggle :
  dom (toggleDetailedExplanation Session.answered) !! "detailContent"
  = Some (set_content [FormattedText (js "See the handbook.")] blank).
Proof. vm_compute. reflexivity. Qed.

(** ** Closing the viewer *)

Lemma bindModal_closes (ev : ModalEvent) (w : World) :
  closes ev -> modal_open w -> bindModal ev w = closeModal w.
Proof.
  intros Hev ((modal & Hmodal & Hopen) & (closeBtn & Hclose)).
  destruct Hev; cbn [bindModal]; rewrite ?Hclose, Hmodal, ?Hopen;
    reflexivity.
Qed.

Lemma app_closeModal (w : World) :
  app (closeModal w) =
    set_currentDocumentName []
      (set_currentPdfUrl [] (set_pdfDoc None (set_selectedText [] (app w)))).
Proof.
  unfold closeModal, cleanupModal. autorewrite with world. reflexivity.
Qed.

Lemma closeModal_hides (w : World) (modal : Element) :
  dom w !! "snippetModal" = Some modal -> modal_hidden (closeModal w).
Proof.
  intros Hmodal. exists (set_hidden true modal). split; [|reflexivity].
  unfold closeModal, cleanupModal. lookups. rewrite Hmodal. reflexivity.
Qed.

(** C8: closing the open viewer by the close button, by the Escape key or
    by a click on the backdrop hides the modal and leaves the selected text
    empty, the document handle [null], and the document URL and name
    empty. *)
Theorem closing_clears_document (ev : ModalEvent) (w : World) :
  closes ev ->
  modal_open w ->
  let w' := bindModal ev w in
  modal_hidden w'
  /\ selectedText (app w') = []
  /\ pdfDoc (app w') = None
  /\ currentPdfUrl (app w') = []
  /\ currentDocumentName (app w') = [].
Proof.
  intros Hev Hopen w'. unfold w'.
  rewrite (bindModal_closes ev w Hev Hopen).
  destruct Hopen as ((modal & Hmodal & _) & _).
  split; [exact (closeModal_hides w modal Hmodal)|].
  rewrite app_closeModal. repeat split.
Qed.

Lemma reading_modal_open : modal_open Session.reading.
Proof.
  split; eexists; [split|]; vm_compute; reflexivity.
Qed.

Lemma closing_clears_document_witness :
  pdfDoc (app Session.reading) = Some (mkPdfDoc 3)
  /\ pdfDoc (app (bindModal (KeyDown (js "Escape")) Session.reading)) = None
  /\ currentPdfUrl (app (bindModal (KeyDown (js "Escape")) Session.reading))
     = [].
Proof.
  split; [vm_compute; reflexivity|].
  destruct (closing_clears_document (KeyDown (js "Escape")) Session.reading
              closes_escape reading_modal_open) as (_ & _ & Hdoc & Hurl & _).
  split; assumption.
Defined.

(** Other keys, and clicks inside the dialog, close nothing. *)
Example other_events_do_not_close :
  bindModal (KeyDown (js "Enter")) Session.reading = Session.reading
  /\ bindModal (ModalClicked false) Session.reading = Session.reading.
Proof. split; vm_compute; reflexivity. Qed.

(** C7, as stated, fails: the reader is on page 2 at 125% with a render in
    flight and a page pending; the close button leaves all four as they
    are. *)
Lemma closing_keeps_page_and_zoom :
  modal_open Session.reading
  /\ ~ session_reset (app (bindModal CloseClicked Session.reading))
  /\ pageNum (app (bindModal CloseClicked Session.reading)) = 2
  /\ scale (app (bindModal CloseClicked Session.reading)) = 1.25%float
  /\ pageRendering (app (bindModal CloseClicked Session.reading)) = true
  /\ pageNumPending (app (bindModal CloseClicked Session.reading)) = Some 2.
Proof.
  split; [exact reading_modal_open|].
  split.
  - intros (_ & Hpage & _). vm_compute in Hpage. discriminate Hpage.
  - vm_compute. repeat split.
Qed.

(** [processQuery] assigns no field but [currentQuery]. *)
Lemma app_processQuery (w : World) :
  app (processQuery w) = app w
  \/ app (processQuery w) = set_currentQuery (question w) (app w).
Proof.
  unfold processQuery, showAlert, showLoading.
  destruct (negb (truthy (question w))).
  - left. apply app_toast.
  - right. autorewrite with world. reflexivity.
Qed.

Lemma app_follow_up (q err : JSString) (confirmed : bool) (w : World) :
  let w' := generateFollowUp_resume (FollowUpResponded true q err) confirmed w in
  app w' = app (closeModal w)
  \/ app w' = set_currentQuery (question w') (app (closeModal w)).
Proof.
  cbn [generateFollowUp_resume].
  set (w1 := toast _ success _).
  assert (E : app w1 = app (closeModal w)).
  { unfold w1. rewrite app_toast. unfold closeModal, cleanupModal, hideLoading.
    autorewrite with world. reflexivity. }
  destruct confirmed.
  - destruct (app_processQuery w1) as [H|H]; rewrite H, E.
    + left. reflexivity.
    + right. f_equal. unfold processQuery, showAlert, showLoading, question.
      destruct (negb (truthy _)); unfold toast, toast_for;
        repeat match goal with
               | |- context [match dom ?x !! "toasts" with _ => _ end] =>
                   destruct (dom x !! "toasts")
               end; lookups; reflexivity.
  - left. exact E.
Qed.

(** C7, amended: whenever the viewer modal closes (by the close button, by
    the Escape key or by a click on the backdrop while it is open, or
    because a follow-up question arrived), the document handle, the
    selected text, the document name and the document URL are reset to
    their initial values, and the page number, the zoom scale, the
    in-flight flag and the pending page are left as they were. *)
Theorem closing_resets_document_fields_only (w w' : World) :
  modal_closes w w' ->
  (pdfDoc (app w') = pdfDoc constructor
   /\ selectedText (app w') = selectedText constructor
   /\ currentDocumentName (app w') = currentDocumentName constructor
   /\ currentPdfUrl (app w') = currentPdfUrl constructor)
  /\ (pageNum (app w') = pageNum (app w)
      /\ scale (app w') = scale (app w)
      /\ pageRendering (app w') = pageRendering (app w)
      /\ pageNumPending (app w') = pageNumPending (app w)).
Proof.
  intros [ev Hev Hopen | q err confirmed].
  - rewrite (bindModal_closes ev w Hev Hopen), app_closeModal.
    repeat split.
  - destruct (app_follow_up q err confirmed w) as [E|E]; rewrite E;
      rewrite app_closeModal; repeat split.
Qed.

Lemma closing_resets_document_fields_only_witness :
  pdfDoc (app (bindModal (ModalClicked true) Session.reading)) = None
  /\ pageNum (app (bindModal (ModalClicked true) Session.reading))
     = pageNum (app Session.reading).
Proof.
  destruct (closing_resets_document_fields_only Session.reading _
              (closed_by_listener Session.reading (ModalClicked true)
                 closes_backdrop reading_modal_open))
    as ((Hdoc & _) & (Hpage & _)).
  split; assumption.
Defined.

(** The follow-up question closes the viewer the same way. *)
Example follow_up_closes_the_same_way :
  let w := generateFollowUp_resume
             (FollowUpResponded true (js "What about labs?") []) false
             Session.reading in
  pdfDoc (app w) = None /\ pageNum (app w) = 2 /\ scale (app w) = 1.25%float.
Proof. vm_compute. repeat split. Qed.

(** The next document starts on page 1 at 100% again. *)
Example next_document_starts_afresh :
  let w := initialize_loaded (mkPdfDoc 9)
             (bindModal CloseClicked Session.reading) in
  pageNum (app w) = 1 /\ scale (app w) = 1.0%float.
Proof. vm_compute. split; reflexivity. Qed.

(** ** Selections *)

Lemma selectionSettled_long (selection : JSString) (w : World) :
  (5 < length (trim selection))%nat ->
  selectedText (app (selectionSettled selection w)) = trim selection
  /\ (selection_panel_present w ->
      selection_box_shows (trim selection) (selectionSettled selection w)).
Proof.
  intros Hlong. unfold selectionSettled.
  apply Nat.ltb_lt in Hlong. rewrite Hlong. cbn [dom with_app]. split.
  - autorewrite with world.
    destruct (dom w !! "textSelectionDisplay"), (dom w !! "selectedTextBox");
      autorewrite with world; reflexivity.
  - intros ((panel & Hpanel) & (box & Hbox)). rewrite Hpanel, Hbox.
    split; eexists; (split; [unfold toast, toast_for;
      destruct (dom _ !! "toasts"); lookups; rewrite ?Hbox, ?Hpanel;
      reflexivity | reflexivity]).
Qed.

Lemma selectionSettled_short (selection : JSString) (w : World) :
  (length (trim selection) <= 5)%nat ->
  selectedText (app (selectionSettled selection w)) = []
  /\ (is_Some (dom w !! "textSelectionDisplay") ->
      selection_display_hidden (selectionSettled selection w)).
Proof.
  intros Hshort. unfold selectionSettled.
  apply Nat.ltb_ge in Hshort. rewrite Hshort. split.
  - autorewrite with world. reflexivity.
  - intros [panel Hpanel].
    eexists. split; [unfold clearPDFSelection, toast, toast_for;
      destruct (dom _ !! "toasts"); lookups; rewrite Hpanel;
      reflexivity | reflexivity].
Qed.

(** C9: there is a length [L], namely 5, such that whenever the selection
    timer fires, a trimmed selection longer than [L] is stored in
    [selectedText] and, in a page that has the viewer's selection panel and
    text box, shown in the box with the panel displayed; a trimmed
    selection of length [L] or less empties [selectedText] and hides the
    selection panel, if the page has one. *)
Theorem selection_threshold :
  exists L : nat,
    L = 5%nat
    /\ forall (selection : JSString) (w : World),
        let w' := selectionSettled selection w in
        ((L < length (trim selection))%nat ->
         selectedText (app w') = trim selection
         /\ (selection_panel_present w ->
             selection_box_shows (trim selection) w'))
        /\ ((length (trim selection) <= L)%nat ->
            selectedText (app w') = []
            /\ (is_Some (dom w !! "textSelectionDisplay") ->
                selection_display_hidden w')).
Proof.
  exists 5%nat. split; [reflexivity|].
  intros selection w w'. split; intros Hlen.
  - apply selectionSettled_long; assumption.
  - apply selectionSettled_short; assumption.
Qed.

Lemma selection_threshold_witness :
  selection_box_shows (js "attendance")
    (selectionSettled (js "  attendance ") Session.viewing)
  /\ selection_display_hidden
       (selectionSettled (js " rule ")
          (selectionSettled (js "  attendance ") Session.viewing)).
Proof.
  destruct selection_threshold as (L & -> & H).
  split.
  - apply (H (js "  attendance ") Session.viewing).
    + vm_compute. lia.
    + split; eexists; vm_compute; reflexivity.
  - apply (H (js " rule ")).
    + vm_compute. lia.
    + eexists. vm_compute. reflexivity.
Defined.

(** Six code units are stored, five are not. *)
Example selection_of_six_and_five :
  selectedText (app (selectionSettled (js "clause") Session.viewing))
  = js "clause"
  /\ selectedText (app (selectionSettled (js "rules") Session.viewing)) = [].
Proof. vm_compute. split; reflexivity. Qed.

(** ** Source cards *)

Lemma appendChild_content (n : Node) (e : Element) (rest : list Node) :
  set_content (content (appendChild n e) ++ rest) (appendChild n e)
  = set_content (content e ++ n :: rest) e.
Proof. destruct e. cbn. rewrite <- app_assoc. reflexivity. Qed.

(** The loop of [displaySources]: the cards are appended in the order of
    the entries. *)
Lemma cards_appended (srcs : list Source) (w : World) (container : Element) :
  dom w !! "documentsContainer" = Some container ->
  dom (fold_left
         (fun w s =>
            update "documentsContainer" (appendChild (CardNode (doc_card s))) w)
         srcs w) !! "documentsContainer"
  = Some (set_content
            (content container ++ map (fun s => CardNode (doc_card s)) srcs)
            container).
Proof.
  revert w container. induction srcs as [|s srcs IH]; intros w container H.
  - cbn. rewrite app_nil_r, H. destruct container; reflexivity.
  - cbn [fold_left map].
    rewrite (IH _ _ (dom_update_eq _ _ _ _ H)).
    rewrite appendChild_content. reflexivity.
Qed.

Lemma displaySources_cards (data : QueryResult) (srcs : list Source)
    (w : World) :
  sources data = Some srcs ->
  srcs <> [] ->
  is_Some (dom w !! "documentsContainer") ->
  is_Some (dom w !! "docsCard") ->
  source_cards (displaySources data w)
  = map (fun s => CardNode (doc_card s)) srcs.
Proof.
  intros Hsrc Hne [container Hcontainer] [card Hcard].
  unfold displaySources, source_cards. rewrite Hsrc.
  destruct srcs as [|s rest]; [congruence|].
  rewrite (dom_update_eq _ _ _ _ Hcontainer).
  rewrite dom_update_ne by discriminate. rewrite Hcard.
  assert (Hemptied :
            dom (update "docsCard" (set_hidden false)
                   (update "documentsContainer" (set_content []) w))
              !! "documentsContainer" = Some (set_content [] container)).
  { rewrite dom_update_ne by discriminate. apply dom_update_eq, Hcontainer. }
  rewrite (cards_appended _ _ _ Hemptied). reflexivity.
Qed.

(** With an answer in the response, a non-empty source list and a page that
    has the source container and its card, [displayResults] returns and
    leaves one card per entry, in order, each with the rounded percentage
    of its entry. *)
Lemma displayResults_one_card_per_source (data : QueryResult) (a : JSString)
    (srcs : list Source) (w : World) :
  answer data = Some a ->
  sources data = Some srcs ->
  srcs <> [] ->
  is_Some (dom w !! "documentsContainer") ->
  is_Some (dom w !! "docsCard") ->
  exists w', displayResults data w = Normal w'
    /\ source_cards w' = map (fun s => CardNode (doc_card s)) srcs
    /\ length (source_cards w') = length srcs
    /\ Forall2 (fun s n => exists card, n = CardNode card
                  /\ card_relevancePercent card
                     = Math_round (relevance s * 100)%float)
               srcs (source_cards w').
Proof.
  intros Hans Hsrc Hne Hcontainer Hcard.
  assert (Hcards : forall w0,
             is_Some (dom w0 !! "documentsContainer") ->
             is_Some (dom w0 !! "docsCard") ->
             exists w', match dom (displaySources data w0) !! "resultsSection" with
                        | Some _ => Normal (log (ScrollIntoView "resultsSection")
                                              (displaySources data w0))
                        | None => Normal (displaySources data w0)
                        end = Normal w'
               /\ source_cards w' = map (fun s => CardNode (doc_card s)) srcs).
  { intros w0 Hc Hd.
    pose proof (displaySources_cards data srcs w0 Hsrc Hne Hc Hd) as E.
    destruct (dom (displaySources data w0) !! "resultsSection");
      eexists; (split; [reflexivity|exact E]). }
  assert (Hdone : exists w', displayResults data w = Normal w'
            /\ source_cards w' = map (fun s => CardNode (doc_card s)) srcs).
  { unfold displayResults, displayAnswer. rewrite Hans.
    destruct (dom (update "resultsSection" (set_hidden false) w)
                !! "answerContent") eqn:Hanswer.
    - destruct (includes a WEB_SEARCH_MARKER); [|destruct (has_sources data)];
        apply Hcards; lookups; assumption.
    - apply Hcards; lookups; assumption. }
  destruct Hdone as (w' & Hret & Hcards').
  exists w'. split; [exact Hret|]. split; [exact Hcards'|].
  rewrite Hcards'. split; [apply length_map|].
  clear. induction srcs as [|s srcs IH]; constructor; [|exact IH].
  exists (doc_card s). split; reflexivity.
Qed.

(** Without an answer, on a page with the answer pane, [displayResults]
    stops at [data.answer.includes]: the source list is left as it
    was. *)
Lemma displayResults_without_answer (data : QueryResult) (w : World) :
  answer data = None ->
  is_Some (dom w !! "answerContent") ->
  exists w', displayResults data w = Thrown (TypeError "includes") w'
    /\ source_cards w' = source_cards w.
Proof.
  intros Hans [pane Hpane]. unfold displayResults, displayAnswer.
  rewrite Hans. rewrite dom_update_ne by discriminate. rewrite Hpane.
  eexists. split; [reflexivity|].
  unfold source_cards. lookups; reflexivity.
Qed.

(** C1, at a response the code mishandles: a successful response with two
    sources and no [answer] field.  [displayResults] throws before it
    reaches the source list, no card is created, and the user is shown an
    error; the same body with an answer gives the two cards, with 88 and 50
    as their percentages. *)
Theorem sources_without_answer_get_no_cards :
  let shown r := processQuery_resume [TextNode (lit "Ask")] (js "0.4")
                   (Responded true r) Session.asked in
  sources Session.reply_without_answer = Some [Session.handbook; Session.news]
  /\ source_cards (shown Session.reply_without_answer) = []
  /\ last (toasts (shown Session.reply_without_answer))
     = Some (ToastNode error_type
               [Lit (js "Error: "); MessageOf (TypeError "includes")])
  /\ source_cards (shown Session.reply)
     = [CardNode (doc_card Session.handbook); CardNode (doc_card Session.news)]
  /\ map card_relevancePercent [doc_card Session.handbook; doc_card Session.news]
     = [88; 50]%float.
Proof. vm_compute. repeat split. Qed.

(** * Further properties *)

(** ** Blank questions *)

Lemma trimStart_nil_iff (s : JSString) :
  trimStart s = [] <-> forallb is_white_space s = true.
Proof.
  induction s as [|c s IH]; cbn.
  - split; reflexivity.
  - destruct (is_white_space c); cbn.
    + exact IH.
    + split; discriminate.
Qed.

(** What [trimStart] returns is empty or starts with a character that is
    not white space. *)
Lemma trimStart_head (s : JSString) (c : N) (rest : JSString) :
  trimStart s = c :: rest -> is_white_space c = false.
Proof.
  induction s as [|a s IH]; cbn; [discriminate|].
  destruct (is_white_space a) eqn:E; [exact IH|].
  intros [= <- _]. exact E.
Qed.

Lemma forallb_rev_app (f : N -> bool) (l : list N) (c : N) :
  forallb f (l ++ [c]) = (forallb f l && f c)%bool.
Proof. rewrite forallb_app. cbn. rewrite andb_true_r. reflexivity. Qed.

(** [trim] gives the empty string exactly on strings of white space. *)
Lemma trim_nil_iff (s : JSString) :
  trim s = [] <-> forallb is_white_space s = true.
Proof.
  unfold trim, trimEnd. rewrite <- trimStart_nil_iff.
  destruct (trimStart s) as [|c rest] eqn:E.
  - split; reflexivity.
  - split; [|discriminate]. intros H.
    apply (f_equal (@rev N)) in H. rewrite rev_involutive in H. cbn in H.
    apply trimStart_nil_iff in H. cbn [rev] in H.
    rewrite forallb_rev_app in H. apply andb_prop in H as [_ H].
    rewrite (trimStart_head _ _ _ E) in H. discriminate.
Qed.

(** ** Lookups through the larger steps *)

Lemma dom_toast (w : World) (message : Text) (type : ToastType) (id : string) :
  dom (toast message type w) !! id =
    if decide ("toasts" = id)
    then appendChild (ToastNode type message) <$> dom w !! id
    else dom w !! id.
Proof.
  unfold toast, toast_for. destruct (dom w !! "toasts") eqn:E.
  - rewrite dom_log. apply dom_update.
  - destruct (decide ("toasts" = id)) as [<-|]; [rewrite E|]; reflexivity.
Qed.

Lemma effects_toast (w : World) (message : Text) (type : ToastType) :
  effects (toast message type w) =
    effects w ++ match dom w !! "toasts" with
                 | Some _ => [SetTimeout ToastExpiry 3000]
                 | None => []
                 end.
Proof.
  unfold toast, toast_for. destruct (dom w !! "toasts").
  - rewrite effects_log, effects_update. reflexivity.
  - rewrite app_nil_r. reflexivity.
Qed.

(** As [lookups], through toasts and alerts as well. *)
Ltac lookups' :=
  unfold showAlert, showLoading, hideLoading;
  repeat (rewrite ?dom_log, ?dom_with_app, ?dom_update, ?dom_toast;
          repeat match goal with
                 | |- context [decide (?a = ?b)] =>
                     destruct (decide (a = b));
                     [try (discriminate || congruence)|try congruence]
                 end).

Lemma dom_cards_ne (srcs : list Source) (w : World) (id : string) :
  id <> "documentsContainer" ->
  dom (fold_left
         (fun w s =>
            update "documentsContainer" (appendChild (CardNode (doc_card s))) w)
         srcs w) !! id
  = dom w !! id.
Proof.
  intros Hid. revert w. induction srcs as [|s srcs IH]; intros w.
  - reflexivity.
  - cbn [fold_left]. rewrite IH. apply dom_update_ne. congruence.
Qed.

Lemma app_cards (srcs : list Source) (w : World) :
  app (fold_left
         (fun w s =>
            update "documentsContainer" (appendChild (CardNode (doc_card s))) w)
         srcs w) = app w
  /\ effects (fold_left
         (fun w s =>
            update "documentsContainer" (appendChild (CardNode (doc_card s))) w)
         srcs w) = effects w.
Proof.
  revert w. induction srcs as [|s srcs IH]; intros w.
  - split; reflexivity.
  - cbn [fold_left]. destruct (IH (update "documentsContainer"
      (appendChild (CardNode (doc_card s))) w)) as [Ha He].
    rewrite Ha, He, app_update, effects_update. split; reflexivity.
Qed.

Lemma dom_displaySources_ne (data : QueryResult) (w : World) (id : string) :
  id <> "documentsContainer" -> id <> "docsCard" ->
  dom (displaySources data w) !! id = dom w !! id.
Proof.
  intros H1 H2. unfold displaySources.
  destruct (sources data) as [[|s rest]|];
    [lookups'; reflexivity| |lookups'; reflexivity].
  destruct (dom _ !! "documentsContainer"); [|lookups'; reflexivity].
  destruct (dom _ !! "docsCard"); [|lookups'; reflexivity].
  rewrite dom_cards_ne by exact H1. lookups'; reflexivity.
Qed.

Lemma app_displaySources (data : QueryResult) (w : World) :
  app (displaySources data w) = app w
  /\ effects (displaySources data w) = effects w.
Proof.
  unfold displaySources.
  destruct (sources data) as [[|s rest]|];
    [autorewrite with world; split; reflexivity|
    |autorewrite with world; split; reflexivity].
  destruct (dom _ !! "documentsContainer");
    [|autorewrite with world; split; reflexivity].
  destruct (dom _ !! "docsCard");
    [|autorewrite with world; split; reflexivity].
  match goal with
  | |- context [fold_left ?f ?l ?w0] => destruct (app_cards l w0) as [Ha He]
  end.
  rewrite Ha, He. autorewrite with world. split; reflexivity.
Qed.

Lemma dom_displayAnswer_ne (data : QueryResult) (w : World) (id : string) :
  id <> "answerContent" ->
  dom (world_of (displayAnswer data w)) !! id = dom w !! id.
Proof.
  intros Hid. unfold displayAnswer.
  destruct (dom w !! "answerContent"); [|reflexivity].
  destruct (answer data) as [a|]; cbn [world_of]; [|lookups'; reflexivity].
  destruct (includes a WEB_SEARCH_MARKER); [|destruct (has_sources data)];
    cbn [world_of]; lookups'; reflexivity.
Qed.

Lemma app_displayAnswer (data : QueryResult) (w : World) :
  app (world_of (displayAnswer data w)) = app w
  /\ effects (world_of (displayAnswer data w)) = effects w.
Proof.
  unfold displayAnswer.
  destruct (dom w !! "answerContent"); [|split; reflexivity].
  destruct (answer data) as [a|]; cbn [world_of];
    [|autorewrite with world; split; reflexivity].
  destruct (includes a WEB_SEARCH_MARKER); [|destruct (has_sources data)];
    cbn [world_of]; autorewrite with world; split; reflexivity.
Qed.

Lemma dom_displayResults_ne (data : QueryResult) (w : World) (id : string) :
  ~ In id result_panes ->
  dom (world_of (displayResults data w)) !! id = dom w !! id.
Proof.
  intros Hid.
  assert (H1 : id <> "resultsSection") by (intros ->; apply Hid; cbn; tauto).
  assert (H2 : id <> "answerContent") by (intros ->; apply Hid; cbn; tauto).
  assert (H3 : id <> "documentsContainer")
    by (intros ->; apply Hid; cbn; tauto).
  assert (H4 : id <> "docsCard") by (intros ->; apply Hid; cbn; tauto).
  unfold displayResults.
  pose proof (dom_displayAnswer_ne data
                (update "resultsSection" (set_hidden false) w) id H2) as HA.
  destruct (displayAnswer data _) as [w1|e w1]; cbn [world_of] in *.
  - assert (E : dom (displaySources data w1) !! id = dom w !! id).
    { rewrite dom_displaySources_ne by assumption. rewrite HA.
      apply dom_update_ne. congruence. }
    destruct (dom (displaySources data w1) !! "resultsSection");
      cbn [world_of]; rewrite ?dom_log; exact E.
  - rewrite HA. apply dom_update_ne. congruence.
Qed.

Lemma app_displayResults (data : QueryResult) (w : World) :
  app (world_of (displayResults data w)) = app w.
Proof.
  unfold displayResults.
  destruct (app_displayAnswer data
              (update "resultsSection" (set_hidden false) w)) as [HA _].
  destruct (displayAnswer data _) as [w1|e w1]; cbn [world_of] in *.
  - destruct (app_displaySources data w1) as [HS _].
    destruct (dom (displaySources data w1) !! "resultsSection");
      cbn [world_of]; rewrite ?app_log, HS, HA; apply app_update.
  - rewrite HA. apply app_update.
Qed.

(** The [try] block touches the result panes and the toasts, and assigns
    [currentResult] when the response is a success. *)
Lemma dom_processQuery_try_ne (time : JSString) (r : FetchResult) (w : World)
    (id : string) :
  ~ In id ("toasts" :: result_panes) ->
  dom (world_of (processQuery_try time r w)) !! id = dom w !! id.
Proof.
  intros Hid. assert (Hp : ~ In id result_panes) by (cbn in *; tauto).
  assert (Ht : "toasts" <> id) by (intros <-; apply Hid; cbn; tauto).
  unfold processQuery_try. destruct r as [m|[|] data]; try reflexivity.
  pose proof (dom_displayResults_ne data
                (with_app (set_currentResult (Some data)) w) id Hp) as HD.
  destruct (displayResults data _) as [w1|e w1]; cbn [world_of] in *;
    [|exact HD].
  destruct (answer data) as [a|]; cbn [world_of]; [|exact HD].
  destruct (includes a WEB_SEARCH_MARKER); cbn [world_of];
    rewrite dom_toast; destruct (decide _); try congruence; exact HD.
Qed.

Lemma app_processQuery_try (time : JSString) (r : FetchResult) (w : World) :
  app (world_of (processQuery_try time r w)) =
    match r with
    | Responded true data => set_currentResult (Some data) (app w)
    | _ => app w
    end.
Proof.
  unfold processQuery_try. destruct r as [m|[|] data]; try reflexivity.
  pose proof (app_displayResults data
                (with_app (set_currentResult (Some data)) w)) as HD.
  destruct (displayResults data _) as [w1|e w1]; cbn [world_of] in *;
    [|exact HD].
  destruct (answer data) as [a|]; cbn [world_of]; [|exact HD].
  destruct (includes a WEB_SEARCH_MARKER); cbn [world_of];
    rewrite app_toast; exact HD.
Qed.

(** The world between the [try] block and the [finally] block. *)
Lemma processQuery_resume_eq (originalText : list Node) (time : JSString)
    (r : FetchResult) (w : World) :
  exists w1,
    processQuery_resume originalText time r w
    = update "askButton"
        (fun askBtn => set_content originalText (set_disabled false askBtn))
        (hideLoading w1)
    /\ app w1 = app (world_of (processQuery_try time r w))
    /\ (forall id, id <> "toasts" ->
        dom w1 !! id = dom (world_of (processQuery_try time r w)) !! id).
Proof.
  unfold processQuery_resume.
  destruct (processQuery_try time r w) as [w1|e w1]; cbn [world_of].
  - exists w1. repeat split.
  - eexists. split; [reflexivity|]. split.
    + unfold showAlert. apply app_toast.
    + intros id Hid. unfold showAlert. apply dom_toast_ne, Hid.
Qed.

(** ** Submitting a question *)

Lemma question_typed (w : World) : question w = trim (typed w).
Proof. unfold question, typed. destruct (dom w !! "queryInput"); reflexivity. Qed.

Lemma processQuery_posting (w : World) :
  question w <> [] ->
  processQuery w
  = log (Fetch "/api/query" "POST" [("query", [Lit (question w)])])
      (update "askButton"
         (fun askBtn =>
            set_content [TextNode PROCESSING_LABEL] (set_disabled true askBtn))
         (showLoading [Lit (js "Processing your query" ++ ELLIPSIS)]
            (with_app (set_currentQuery (question w)) w))).
Proof.
  intros Hq. unfold processQuery.
  destruct (question w) as [|c q]; [congruence|]. reflexivity.
Qed.

(** X3: [processQuery] posts exactly when the field holds a character that
    is not white space; the request then carries the trimmed text, which
    also becomes [currentQuery], and the ask button is disabled and
    relabelled until the answer is handled. *)
Theorem processQuery_posts_unless_blank (w : World) :
  requests (processQuery w)
  = requests w
    ++ (if forallb is_white_space (typed w) then []
        else [Fetch "/api/query" "POST" [("query", [Lit (trim (typed w))])]])
  /\ (forallb is_white_space (typed w) = false ->
      currentQuery (app (processQuery w)) = trim (typed w)
      /\ trim (typed w) <> []
      /\ (forall btn, dom w !! "askButton" = Some btn ->
          dom (processQuery w) !! "askButton"
          = Some (set_content [TextNode PROCESSING_LABEL]
                    (set_disabled true btn)))).
Proof.
  destruct (forallb is_white_space (typed w)) eqn:Hblank.
  - split; [|discriminate].
    apply trim_nil_iff in Hblank. rewrite <- question_typed in Hblank.
    unfold processQuery. rewrite Hblank. cbn.
    rewrite app_nil_r. apply requests_toast.
  - assert (Hq : question w <> []).
    { rewrite question_typed. intros H. apply trim_nil_iff in H. congruence. }
    rewrite (processQuery_posting w Hq), <- question_typed.
    split; [|intros _; split; [|split]].
    + unfold requests, showLoading. autorewrite with world.
      rewrite List.filter_app. reflexivity.
    + unfold showLoading. autorewrite with world. reflexivity.
    + exact Hq.
    + intros btn Hbtn. lookups'. rewrite Hbtn. reflexivity.
Qed.

Lemma processQuery_posts_unless_blank_witness :
  currentQuery (app Session.asked) = js "attendance?".
Proof.
  apply (processQuery_posts_unless_blank
           (update "queryInput" (set_value (js " attendance? "))
                   Session.started)).
  vm_compute. reflexivity.
Defined.

Lemma askButton_after_resume (originalText : list Node) (time : JSString)
    (r : FetchResult) (w : World) (btn : Element) :
  dom w !! "askButton" = Some btn ->
  dom (processQuery_resume originalText time r w) !! "askButton"
  = Some (set_content originalText (set_disabled false btn)).
Proof.
  intros Hbtn.
  destruct (processQuery_resume_eq originalText time r w) as (w1 & -> & _ & Hd).
  lookups'. rewrite Hd by discriminate.
  rewrite dom_processQuery_try_ne.
  - rewrite Hbtn. reflexivity.
  - cbn. intuition discriminate.
Qed.

Lemma overlay_after_resume (originalText : list Node) (time : JSString)
    (r : FetchResult) (w : World) (overlay : Element) :
  dom w !! "loadingOverlay" = Some overlay ->
  dom (processQuery_resume originalText time r w) !! "loadingOverlay"
  = Some (set_hidden true overlay).
Proof.
  intros Hov.
  destruct (processQuery_resume_eq originalText time r w) as (w1 & -> & _ & Hd).
  lookups'. rewrite Hd by discriminate.
  rewrite dom_processQuery_try_ne.
  - rewrite Hov. reflexivity.
  - cbn. intuition discriminate.
Qed.

(** X4: a question that was posted and whose answer was handled, whatever
    the answer (a rejected request, an error status, a body that cannot be
    displayed, a success), leaves the ask button with the label it had
    before and enabled, and the loading overlay hidden. *)
Theorem answered_query_restores_button (w : World) (time : JSString)
    (r : FetchResult) (btn : Element) :
  question w <> [] ->
  dom w !! "askButton" = Some btn ->
  let w' := processQuery_resume (askButton_label w) time r (processQuery w) in
  dom w' !! "askButton" = Some (set_disabled false btn)
  /\ (forall overlay, dom w !! "loadingOverlay" = Some overlay ->
      dom (processQuery w) !! "loadingOverlay" = Some (set_hidden false overlay)
      /\ dom w' !! "loadingOverlay" = Some (set_hidden true overlay)).
Proof.
  intros Hq Hbtn w'.
  assert (Hbtn1 : dom (processQuery w) !! "askButton"
                  = Some (set_content [TextNode PROCESSING_LABEL]
                            (set_disabled true btn))).
  { rewrite (processQuery_posting w Hq). lookups'. rewrite Hbtn. reflexivity. }
  split.
  - unfold w'. rewrite (askButton_after_resume _ _ _ _ _ Hbtn1).
    unfold askButton_label. rewrite Hbtn. reflexivity.
  - intros overlay Hov.
    assert (Hov1 : dom (processQuery w) !! "loadingOverlay"
                   = Some (set_hidden false overlay)).
    { rewrite (processQuery_posting w Hq). lookups'. rewrite Hov. reflexivity. }
    split; [exact Hov1|].
    unfold w'. rewrite (overlay_after_resume _ _ _ _ _ Hov1).
    destruct overlay; reflexivity.
Qed.

Lemma answered_query_restores_button_witness :
  dom Session.answered !! "askButton"
  = Some (set_content [TextNode (lit "Ask")] blank).
Proof.
  pose (w := update "queryInput" (set_value (js " attendance? "))
               Session.started).
  assert (Hq : question w <> []) by (vm_compute; discriminate).
  assert (Hbtn : dom w !! "askButton"
                 = Some (set_content [TextNode (lit "Ask")] blank))
    by (vm_compute; reflexivity).
  destruct (answered_query_restores_button w (js "0.4")
              (Responded true Session.reply) _ Hq Hbtn) as [H _].
  exact H.
Defined.



(** X6: on every response with a success status [currentResult] becomes the
    body of the response and no other field of the controller changes,
    whether or not the body can be displayed. *)
Theorem successful_query_replaces_result (originalText : list Node)
    (time : JSString) (data : QueryResult) (w : World) :
  app (processQuery_resume originalText time (Responded true data) w)
  = set_currentResult (Some data) (app w).
Proof.
  destruct (processQuery_resume_eq originalText time (Responded true data) w)
    as (w1 & -> & Ha & _).
  unfold hideLoading. autorewrite with world.
  rewrite Ha. apply app_processQuery_try.
Qed.

(** ** Two submissions in flight *)

Lemma question_processQuery (w : World) :
  question (processQuery w) = question w.
Proof.
  assert (H : dom (processQuery w) !! "queryInput" = dom w !! "queryInput").
  { unfold processQuery. destruct (negb (truthy (question w)));
      lookups'; reflexivity. }
  unfold question. rewrite H. reflexivity.
Qed.

Lemma requests_posting (w : World) :
  question w <> [] ->
  requests (processQuery w)
  = requests w ++ [Fetch "/api/query" "POST" [("query", [Lit (question w)])]].
Proof.
  intros Hq. rewrite (processQuery_posting w Hq).
  unfold requests, showLoading. autorewrite with world.
  rewrite List.filter_app. reflexivity.
Qed.

(** X7: Ctrl+Enter in the query field runs [processQuery] twice, once from
    the field's listener and once from the document's: a question that is
    not blank is posted twice.  With the Meta key instead of Ctrl only the
    document's listener answers and the question is posted once. *)
Theorem ctrl_enter_posts_twice (w : World) :
  question w <> [] ->
  let post := Fetch "/api/query" "POST" [("query", [Lit (question w)])] in
  requests (keydown_in_queryInput true false (js "Enter") w)
  = requests w ++ [post; post]
  /\ requests (keydown_in_queryInput false true (js "Enter") w)
     = requests w ++ [post].
Proof.
  intros Hq post.
  assert (Hinput : exists input, dom w !! "queryInput" = Some input).
  { unfold question in Hq. destruct (dom w !! "queryInput"); [eauto|congruence]. }
  destruct Hinput as [input Hinput].
  assert (Hmodal : forall w0, bindModal (KeyDown (js "Enter")) w0 = w0).
  { intros w0. cbn. destruct (dom w0 !! "snippetModal"); reflexivity. }
  assert (Hfield : forall w0, queryInput_keydown true (js "Enter") w0
                              = processQuery w0) by reflexivity.
  assert (Hfield' : forall w0, queryInput_keydown false (js "Enter") w0 = w0)
    by reflexivity.
  assert (Hdoc : forall ctrl meta w0,
             (ctrl || meta)%bool = true ->
             document_keydown ctrl meta (js "Enter") true w0 = processQuery w0).
  { intros ctrl meta w0 H. unfold document_keydown. rewrite H. reflexivity. }
  unfold keydown_in_queryInput.
  rewrite Hinput, !Hmodal, Hfield, Hfield', !Hdoc by reflexivity. split.
  - assert (Hq1 : question (processQuery w) <> [])
      by (rewrite question_processQuery; exact Hq).
    rewrite (requests_posting _ Hq1), (requests_posting _ Hq).
    rewrite question_processQuery, <- app_assoc. reflexivity.
  - apply requests_posting, Hq.
Qed.

Lemma ctrl_enter_posts_twice_witness :
  length (requests
            (keydown_in_queryInput true false (js "Enter")
               (update "queryInput" (set_value (js "fees?")) Session.started)))
  = 3%nat.
Proof.
  pose (w := update "queryInput" (set_value (js "fees?")) Session.started).
  assert (Hq : question w <> []) by (vm_compute; discriminate).
  destruct (ctrl_enter_posts_twice w Hq) as [H _].
  fold w. rewrite H, length_app. vm_compute. reflexivity.
Defined.

(** X8: of two submissions whose answers are both outstanding, the second
    finds the ask button already relabelled and takes "Processing" for its
    original label.  When its answer is the one handled last, the button
    ends up enabled under the label "Processing"; when the answer to the
    first is handled last, the button gets its own label back. *)
Theorem second_submission_keeps_processing_label (w : World) (btn : Element)
    (time1 time2 : JSString) (r1 r2 : FetchResult) :
  question w <> [] ->
  dom w !! "askButton" = Some btn ->
  let label1 := askButton_label w in
  let label2 := askButton_label (processQuery w) in
  let posted := processQuery (processQuery w) in
  label2 = [TextNode PROCESSING_LABEL]
  /\ dom (processQuery_resume label2 time2 r2
            (processQuery_resume label1 time1 r1 posted)) !! "askButton"
     = Some (set_content [TextNode PROCESSING_LABEL] (set_disabled false btn))
  /\ dom (processQuery_resume label1 time1 r1
            (processQuery_resume label2 time2 r2 posted)) !! "askButton"
     = Some (set_disabled false btn).
Proof.
  intros Hq Hbtn label1 label2 posted.
  assert (Hbtn1 : dom (processQuery w) !! "askButton"
                  = Some (set_content [TextNode PROCESSING_LABEL]
                            (set_disabled true btn))).
  { rewrite (processQuery_posting w Hq). lookups'. rewrite Hbtn. reflexivity. }
  assert (Hq1 : question (processQuery w) <> [])
    by (rewrite question_processQuery; exact Hq).
  assert (Hbtn2 : dom posted !! "askButton"
                  = Some (set_content [TextNode PROCESSING_LABEL]
                            (set_disabled true btn))).
  { unfold posted. rewrite (processQuery_posting _ Hq1). lookups'.
    rewrite Hbtn1. reflexivity. }
  assert (Hlabel2 : label2 = [TextNode PROCESSING_LABEL]).
  { unfold label2, askButton_label. rewrite Hbtn1. reflexivity. }
  split; [exact Hlabel2|]. split.
  - rewrite (askButton_after_resume label2 time2 r2 _ _
               (askButton_after_resume label1 time1 r1 _ _ Hbtn2)).
    rewrite Hlabel2. reflexivity.
  - rewrite (askButton_after_resume label1 time1 r1 _ _
               (askButton_after_resume label2 time2 r2 _ _ Hbtn2)).
    unfold label1, askButton_label. rewrite Hbtn. reflexivity.
Qed.

Lemma second_submission_keeps_processing_label_witness :
  let w := update "queryInput" (set_value (js "fees?")) Session.started in
  let posted := processQuery (processQuery w) in
  dom (processQuery_resume (askButton_label (processQuery w)) (js "0.3")
         (Responded true Session.reply)
         (processQuery_resume (askButton_label w) (js "0.2")
            (Responded true Session.reply) posted)) !! "askButton"
  = Some (set_content [TextNode PROCESSING_LABEL] blank).
Proof.
  intros w posted.
  assert (Hq : question w <> []) by (vm_compute; discriminate).
  assert (Hbtn : dom w !! "askButton"
                 = Some (set_content [TextNode (lit "Ask")] blank))
    by (vm_compute; reflexivity).
  destruct (second_submission_keeps_processing_label w _ (js "0.2") (js "0.3")
              (Responded true Session.reply) (Responded true Session.reply)
              Hq Hbtn) as (_ & H & _).
  exact H.
Defined.

(** ** Clearing the query *)

(** X9: after [clearQuery] the field is empty, so that asking again posts
    nothing; the detail panel is hidden, its button says "Details" and
    [detailVisible] is false, which is the state toggling starts from.  The
    current result and the current query are kept: the Details button
    still opens the explanation of the answer that was cleared away. *)
Theorem clearQuery_resets_the_view (w : World) :
  let w' := clearQuery w in
  question w' = []
  /\ requests (processQuery w') = requests w
  /\ detailVisible (app w') = false
  /\ currentResult (app w') = currentResult (app w)
  /\ currentQuery (app w') = currentQuery (app w)
  /\ (is_Some (dom w !! "detailCard") -> detail_panel_hidden w')
  /\ (is_Some (dom w !! "detailToggle") ->
      details_button_shows DETAILS_LABEL w')
  /\ (forall result card btn,
        currentResult (app w) = Some result ->
        dom w !! "detailCard" = Some card ->
        dom w !! "detailToggle" = Some btn ->
        ~ detail_panel_hidden (toggleDetailedExplanation w')).
Proof.
  intros w'. unfold w', clearQuery, hideResults.
  assert (Hq : question (clearQuery w) = []).
  { unfold question, clearQuery, hideResults. lookups'.
    destruct (dom w !! "queryInput"); reflexivity. }
  fold (hideResults (update "queryInput" (set_value []) w)).
  fold (clearQuery w).
  split; [exact Hq|]. split.
  { unfold processQuery. rewrite Hq. cbn. unfold showAlert.
    rewrite requests_toast. unfold clearQuery, hideResults.
    rewrite requests_toast. unfold requests. autorewrite with world.
    reflexivity. }
  unfold clearQuery, hideResults.
  split; [autorewrite with world; reflexivity|].
  split; [autorewrite with world; reflexivity|].
  split; [autorewrite with world; reflexivity|].
  split; [|split].
  - intros [card Hcard]. exists (set_hidden true card).
    split; [|reflexivity]. lookups'. rewrite Hcard. reflexivity.
  - intros [btn Hbtn]. exists (set_content [TextNode DETAILS_LABEL] btn).
    split; [|reflexivity]. lookups'. rewrite Hbtn. reflexivity.
  - intros result card btn Hres Hcard Hbtn.
    match goal with
    | |- ~ detail_panel_hidden (toggleDetailedExplanation ?x) =>
        destruct (toggle_shows x result (set_hidden true card)
                    (set_content [TextNode DETAILS_LABEL] btn))
          as (_ & Hshown & _)
    end.
    + autorewrite with world. exact Hres.
    + lookups'. rewrite Hcard. reflexivity.
    + lookups'. rewrite Hbtn. reflexivity.
    + autorewrite with world. reflexivity.
    + intros (card' & Hcard' & Hhidden). rewrite Hshown in Hcard'.
      injection Hcard' as <-. discriminate Hhidden.
Qed.

(** ** Opening the viewer *)












(** ** One render, from the request to the page on screen *)

Lemma idle_flag (a : App) :
  pageRendering a = false ->
  set_pageRendering false (set_pageRendering true a) = a.
Proof. destruct a. cbn. intros ->. reflexivity. Qed.

Lemma render_cycle (num : Z) (doc : PdfDoc) (w : World)
    (container info : Element) :
  pdfDoc (app w) = Some doc ->
  pageRendering (app w) = false ->
  pageNumPending (app w) = None ->
  dom w !! "pdfDisplayContainer" = Some container ->
  dom w !! "pageInfoDisplay" = Some info ->
  let w' := render_to_completion num w in
  app w' = app w
  /\ effects w'
     = effects w ++ [GetPage num; RenderPage num (scale (app w));
                     GetTextContent num]
  /\ dom w' !! "pdfDisplayContainer"
     = Some (set_content [PdfPage (scale (app w)) true] container)
  /\ dom w' !! "pageInfoDisplay"
     = Some (set_content
               [TextNode [Lit (js "Page "); Integer num; Lit (js " of ");
                          Integer (numPages doc)]] info)
  /\ dom w' !! "loadingMessage" = None
  /\ (forall id, id <> "pdfDisplayContainer" -> id <> "pageInfoDisplay" ->
      id <> "loadingMessage" -> dom w' !! id = dom w !! id).
Proof.
  intros Hdoc Hflag Hpend Hcontainer Hinfo w'.
  assert (E1 : renderPageAccurately num w
               = log (GetPage num) (with_app (set_pageRendering true) w)).
  { unfold renderPageAccurately. rewrite Hflag. cbn. rewrite Hdoc.
    reflexivity. }
  set (w1 := log (GetPage num) (with_app (set_pageRendering true) w)) in *.
  assert (E2 : renderPage_gotPage num w1
               = log (RenderPage num (scale (app w)))
                   (update "pdfDisplayContainer"
                      (set_content [PdfPage (scale (app w)) false])
                      (mkWorld (app w1) (delete "loadingMessage" (dom w1))
                               (effects w1)))).
  { unfold renderPage_gotPage. unfold w1 at 1. cbn [dom log with_app].
    rewrite Hcontainer. reflexivity. }
  set (w2 := log (RenderPage num (scale (app w))) _) in *.
  assert (Hc2 : dom w2 !! "pdfDisplayContainer"
                = Some (set_content [PdfPage (scale (app w)) false] container)).
  { unfold w2. rewrite dom_log, dom_update. destruct (decide _); [|congruence].
    cbn [dom]. rewrite lookup_delete_ne by discriminate.
    unfold w1. cbn [dom log with_app]. rewrite Hcontainer. reflexivity. }
  assert (Hother2 : forall id, id <> "pdfDisplayContainer" ->
            id <> "loadingMessage" -> dom w2 !! id = dom w !! id).
  { intros id H1 H2. unfold w2. rewrite dom_log, dom_update_ne by congruence.
    cbn [dom]. rewrite lookup_delete_ne by congruence. reflexivity. }
  assert (Hl2 : dom w2 !! "loadingMessage" = None).
  { unfold w2. rewrite dom_log, dom_update_ne by discriminate.
    cbn [dom]. apply lookup_delete_eq. }
  assert (Ha2 : app w2 = set_pageRendering true (app w))
    by (unfold w2; rewrite app_log, app_update; reflexivity).
  assert (He2 : effects w2 = effects w
                  ++ [GetPage num; RenderPage num (scale (app w))]).
  { unfold w2. rewrite effects_log, effects_update. cbn [effects].
    unfold w1. rewrite effects_log, effects_with_app, <- app_assoc.
    reflexivity. }
  unfold w', render_to_completion. rewrite E1, E2.
  unfold renderPage_painted, renderPage_gotText.
  set (w3 := with_app (set_pageRendering false)
               (update "pdfDisplayContainer" fillTextLayer
                  (log (GetTextContent num) w2))).
  assert (Ha3 : app w3 = app w).
  { unfold w3. autorewrite with world. rewrite Ha2. apply idle_flag, Hflag. }
  rewrite Ha3, Hpend.
  assert (Hi3 : dom w3 !! "pageInfoDisplay" = Some info).
  { unfold w3. rewrite dom_with_app, dom_update_ne, dom_log by discriminate.
    rewrite Hother2 by discriminate. exact Hinfo. }
  rewrite Hi3, Ha3, Hdoc.
  split; [autorewrite with world; exact Ha3|].
  split.
  { unfold w3. autorewrite with world. rewrite He2, <- app_assoc.
    reflexivity. }
  split.
  { rewrite dom_update_ne by discriminate. unfold w3.
    rewrite dom_with_app, dom_update. destruct (decide _); [|congruence].
    rewrite dom_log, Hc2. reflexivity. }
  split; [apply dom_update_eq, Hi3|].
  split.
  { rewrite dom_update_ne by discriminate. unfold w3.
    rewrite dom_with_app, dom_update_ne, dom_log by discriminate.
    exact Hl2. }
  intros id H1 H2 H3. rewrite dom_update_ne by congruence. unfold w3.
  rewrite dom_with_app, dom_update_ne, dom_log by congruence.
  apply Hother2; assumption.
Qed.

(** X11: when a document arrives in an idle viewer and its first render
    goes through, the controller holds the document, page 1 and scale 1.0,
    no render is left in flight or pending, exactly one page render was
    started (page 1, painted at 100%), the page container shows the page
    with its text layer, the loading message is gone, the page label reads
    "Page 1 of numPages", and the four page and zoom buttons have their
    handlers. *)
Theorem document_load_shows_first_page (doc : PdfDoc) (w : World)
    (container info : Element) :
  pageRendering (app w) = false ->
  pageNumPending (app w) = None ->
  dom w !! "pdfDisplayContainer" = Some container ->
  dom w !! "pageInfoDisplay" = Some info ->
  let w' := load_to_completion doc w in
  (pdfDoc (app w') = Some doc /\ pageNum (app w') = 1
   /\ scale (app w') = 1.0%float /\ pageRendering (app w') = false
   /\ pageNumPending (app w') = None)
  /\ renders w' = renders w ++ [1]
  /\ In (RenderPage 1 1.0%float) (effects w')
  /\ dom w' !! "pdfDisplayContainer"
     = Some (set_content [PdfPage 1.0%float true] container)
  /\ dom w' !! "pageInfoDisplay"
     = Some (set_content
               [TextNode [Lit (js "Page "); Integer 1; Lit (js " of ");
                          Integer (numPages doc)]] info)
  /\ dom w' !! "loadingMessage" = None
  /\ (forall id h btn, In (id, h) navigation_buttons ->
      dom w !! id = Some btn -> dom w' !! id = Some (set_onclick h btn)).
Proof.
  intros Hflag Hpend Hcontainer Hinfo w'.
  set (w0 := with_app (set_scale 1.0%float)
               (with_app (set_pageNum 1)
                  (update "loadingMessage" (set_display DisplayNone)
                     (with_app (set_pdfDoc (Some doc)) w)))).
  assert (Ha0 : app w0 = set_scale 1.0%float
                           (set_pageNum 1 (set_pdfDoc (Some doc) (app w))))
    by (unfold w0; autorewrite with world; reflexivity).
  assert (E : w' = initialize_rendered (render_to_completion 1 w0)).
  { unfold w', load_to_completion, render_to_completion.
    change (initialize_loaded doc w)
      with (renderPageAccurately (pageNum (app w0)) w0).
    rewrite Ha0. reflexivity. }
  assert (Hd0 : forall id, id <> "loadingMessage" -> dom w0 !! id = dom w !! id).
  { intros id Hid. unfold w0. rewrite !dom_with_app.
    rewrite dom_update_ne by congruence. reflexivity. }
  assert (He0 : effects w0 = effects w)
    by (unfold w0; autorewrite with world; reflexivity).
  destruct (render_cycle 1 doc w0 container info) as (Ha & He & Hc & Hi & Hl & Ho).
  { rewrite Ha0. reflexivity. }
  { rewrite Ha0. exact Hflag. }
  { rewrite Ha0. exact Hpend. }
  { rewrite Hd0 by discriminate. exact Hcontainer. }
  { rewrite Hd0 by discriminate. exact Hinfo. }
  rewrite Ha0 in He, Hc. cbn [scale set_scale] in He, Hc.
  rewrite E. unfold initialize_rendered, bindPDFNavigationControls.
  split.
  { autorewrite with world. rewrite Ha, Ha0. cbn. auto. }
  split.
  { unfold renders. rewrite effects_toast. autorewrite with world.
    rewrite He, He0, !omap_app.
    destruct (dom _ !! "toasts"); cbn; rewrite ?app_nil_r; reflexivity. }
  split.
  { rewrite effects_toast. autorewrite with world. rewrite He.
    apply in_or_app. left. apply in_or_app. right. cbn. tauto. }
  split; [lookups'; rewrite Hc; reflexivity|].
  split; [lookups'; rewrite Hi; reflexivity|].
  split; [lookups'; rewrite Hl; reflexivity|].
  intros id h btn Hin Hbtn.
  assert (Hkeep : dom (render_to_completion 1 w0) !! id = Some btn).
  { cbn in Hin.
    destruct Hin as [[= <- <-]|[[= <- <-]|[[= <- <-]|[[= <- <-]|[]]]]];
      rewrite Ho, Hd0 by discriminate; exact Hbtn. }
  cbn in Hin.
  destruct Hin as [[= <- <-]|[[= <- <-]|[[= <- <-]|[[= <- <-]|[]]]]];
    lookups'; rewrite Hkeep; reflexivity.
Qed.

Lemma document_load_shows_first_page_witness :
  dom (load_to_completion (mkPdfDoc 3)
         (startViewer (card_clicked (doc_card Session.handbook)
                         Session.answered))) !! "pageInfoDisplay"
  = Some (set_content
            [TextNode [Lit (js "Page "); Integer 1; Lit (js " of "); Integer 3]]
            (set_content [TextNode (lit "Page 1 of 1")] blank)).
Proof.
  pose (w := startViewer (card_clicked (doc_card Session.handbook)
                            Session.answered)).
  assert (Hflag : pageRendering (app w) = false) by (vm_compute; reflexivity).
  assert (Hpend : pageNumPending (app w) = None) by (vm_compute; reflexivity).
  assert (Hc : dom w !! "pdfDisplayContainer" = Some blank)
    by (vm_compute; reflexivity).
  assert (Hi : dom w !! "pageInfoDisplay"
               = Some (set_content [TextNode (lit "Page 1 of 1")] blank))
    by (vm_compute; reflexivity).
  destruct (document_load_shows_first_page (mkPdfDoc 3) w _ _ Hflag Hpend Hc Hi)
    as (_ & _ & _ & _ & H & _).
  exact H.
Defined.

(** ** Renders that fail *)

(** X12: a render that is rejected while a page is pending gives the flag
    back, starts nothing and keeps the page in the slot; the page stays
    there until some later render completes, and is rendered then: after
    the next request [n] has gone through, the renders started are [n] and
    then the stale page. *)
Theorem rejected_render_leaves_stale_page (w : World) (doc : PdfDoc)
    (e : JSError) (p n : Z) (container : Element) :
  pdfDoc (app w) = Some doc ->
  pageRendering (app w) = true ->
  pageNumPending (app w) = Some p ->
  dom w !! "pdfDisplayContainer" = Some container ->
  let failed := renderPage_rejected e w in
  let later := render_to_completion n failed in
  (pageRendering (app failed) = false
   /\ pageNumPending (app failed) = Some p
   /\ renders failed = renders w)
  /\ (renders later = renders w ++ [n; p]
      /\ pageNumPending (app later) = None
      /\ pageRendering (app later) = true).
Proof.
  intros Hdoc Hflag Hpend Hcontainer failed later.
  assert (Haf : app failed = set_pageRendering false (app w)).
  { unfold failed, renderPage_rejected, renderPage_catch, showAlert.
    autorewrite with world. reflexivity. }
  assert (Hrf : renders failed = renders w).
  { unfold failed, renderPage_rejected, renderPage_catch, showAlert.
    rewrite renders_toast. unfold renders. autorewrite with world.
    rewrite omap_app. cbn. apply app_nil_r. }
  assert (Hcf : dom failed !! "pdfDisplayContainer" = Some container).
  { unfold failed, renderPage_rejected, renderPage_catch. lookups'.
    exact Hcontainer. }
  split; [rewrite Haf; cbn; auto|].
  unfold later. clear later. clearbody failed.
  assert (E1 : renderPageAccurately n failed
               = log (GetPage n) (with_app (set_pageRendering true) failed)).
  { unfold renderPageAccurately. rewrite Haf. cbn. rewrite Haf. cbn.
    rewrite Hdoc. reflexivity. }
  set (w1 := log (GetPage n) (with_app (set_pageRendering true) failed)) in *.
  assert (E2 : renderPage_gotPage n w1
               = log (RenderPage n (scale (app w1)))
                   (update "pdfDisplayContainer"
                      (set_content [PdfPage (scale (app w1)) false])
                      (mkWorld (app w1) (delete "loadingMessage" (dom w1))
                               (effects w1)))).
  { unfold renderPage_gotPage. unfold w1 at 1. cbn [dom log with_app].
    rewrite Hcf. reflexivity. }
  set (w2 := log (RenderPage n (scale (app w1))) _) in *.
  assert (Ha2 : app w2 = set_pageRendering true (app failed))
    by (unfold w2; rewrite app_log, app_update; reflexivity).
  assert (He2 : effects w2 = effects failed
                  ++ [GetPage n; RenderPage n (scale (app w1))]).
  { unfold w2. rewrite effects_log, effects_update. cbn [effects].
    unfold w1 at 1. rewrite effects_log, effects_with_app, <- app_assoc.
    reflexivity. }
  set (w3 := renderPage_painted n w2).
  assert (Hdoc3 : pdfDoc (app w3) = Some doc).
  { unfold w3, renderPage_painted. rewrite app_log, Ha2, Haf. exact Hdoc. }
  assert (Hpend3 : pageNumPending (app w3) = Some p).
  { unfold w3, renderPage_painted. rewrite app_log, Ha2, Haf. exact Hpend. }
  destruct (render_completion n doc w3 Hdoc3) as (He4 & Hp4 & Hf4).
  rewrite Hpend3 in He4, Hf4.
  assert (El : render_to_completion n failed = renderPage_gotText n w3).
  { unfold render_to_completion. rewrite E1, E2. reflexivity. }
  rewrite El. split; [|split; assumption].
  unfold renders in *. rewrite He4. unfold w3, renderPage_painted.
  rewrite effects_log, He2, !omap_app, Hrf. cbn.
  rewrite app_nil_r, <- app_assoc. reflexivity.
Qed.

Lemma rejected_render_leaves_stale_page_witness :
  renders (render_to_completion 3
             (renderPage_rejected (Error (js "Invalid page request"))
                Session.reading))
  = renders Session.reading ++ [3; 2].
Proof.
  apply (rejected_render_leaves_stale_page Session.reading (mkPdfDoc 3)
           (Error (js "Invalid page request")) 2 3
           (set_content [PdfPage 1.0%float true] blank));
    vm_compute; reflexivity.
Defined.

(** X13: with no document loaded, as after the viewer was closed, no
    handler of the viewer's buttons starts a render, and none changes the
    in-flight flag. *)
Theorem no_render_without_document (h : Handler) (w : World) :
  pdfDoc (app w) = None ->
  renders (run_handler h w) = renders w
  /\ pageRendering (app (run_handler h w)) = pageRendering (app w)
  /\ pdfDoc (app (run_handler h w)) = None.
Proof.
  intros Hdoc.
  assert (Hrender : forall num w0,
             pdfDoc (app w0) = None ->
             renders (renderPageAccurately num w0) = renders w0).
  { intros num w0 H0. unfold renderPageAccurately, renderPage_catch, showAlert.
    destruct (pageRendering (app w0)); [reflexivity|].
    cbn [app with_app]. cbn. rewrite H0. rewrite renders_toast.
    unfold renders. autorewrite with world. rewrite omap_app. cbn.
    apply app_nil_r. }
  assert (Hclear : forall w0, renders (clearPDFSelection w0) = renders w0).
  { intros w0. unfold clearPDFSelection. rewrite renders_toast.
    unfold renders. autorewrite with world. rewrite omap_app. cbn.
    apply app_nil_r. }
  assert (Hzoom : forall w0,
             pdfDoc (app w0) = None ->
             renders (zoom_epilogue w0) = renders w0
             /\ pageRendering (app (zoom_epilogue w0)) = pageRendering (app w0)
             /\ pdfDoc (app (zoom_epilogue w0)) = None).
  { intros w0 H0. unfold zoom_epilogue. split; [|split].
    - rewrite renders_toast, Hclear. unfold renders.
      rewrite effects_update. apply Hrender, H0.
    - autorewrite with world. cbn. rewrite H0.
      destruct (pageRendering (app w0)) eqn:E; cbn; rewrite ?E; reflexivity.
    - autorewrite with world. cbn. rewrite H0.
      destruct (pageRendering (app w0)); cbn; exact H0. }
  destruct h; cbn [run_handler].
  - rewrite renders_toast, app_toast. unfold renders.
    rewrite effects_log, omap_app. cbn. rewrite app_nil_r. auto.
  - rewrite renders_toast, app_toast. unfold renders.
    rewrite effects_log, omap_app. cbn. rewrite app_nil_r. auto.
  - unfold generateFollowUpFromPDF, showAlert, showLoading.
    destruct (negb (truthy (selectedText (app w)))).
    + rewrite renders_toast, app_toast. auto.
    + unfold renders. autorewrite with world. rewrite omap_app. cbn.
      rewrite app_nil_r. auto.
  - rewrite Hclear, app_clearPDFSelection. cbn. auto.
  - unfold prevBtn_onclick. destruct (pageNum (app w) <=? 1).
    + rewrite renders_toast, app_toast. auto.
    + rewrite Hclear, Hrender by (autorewrite with world; exact Hdoc).
      split; [unfold renders; autorewrite with world; reflexivity|].
      autorewrite with world. cbn. rewrite Hdoc.
      destruct (pageRendering (app w)) eqn:E; cbn; rewrite ?E; auto.
  - unfold nextBtn_onclick. rewrite Hdoc. cbn [settle].
    unfold window_onerror, showAlert. rewrite renders_toast, app_toast.
    unfold renders. rewrite effects_log, omap_app. cbn.
    rewrite app_nil_r. auto.
  - unfold zoomInBtn_onclick.
    destruct (Hzoom (with_app (set_scale
                (Math_min (scale (app w) + 0.25) 3.0)%float) w) Hdoc)
      as (H1 & H2 & H3).
    auto.
  - unfold zoomOutBtn_onclick.
    destruct (Hzoom (with_app (set_scale
                (Math_max (scale (app w) - 0.25) 0.5)%float) w) Hdoc)
      as (H1 & H2 & H3).
    auto.
Qed.

Lemma no_render_without_document_witness :
  renders (click "prevPageBtn" (bindModal CloseClicked Session.reading))
  = renders (bindModal CloseClicked Session.reading).
Proof.
  assert (E : click "prevPageBtn" (bindModal CloseClicked Session.reading)
              = run_handler PrevPage (bindModal CloseClicked Session.reading)).
  { unfold click.
    assert (H : dom (bindModal CloseClicked Session.reading) !! "prevPageBtn"
                = Some (set_onclick PrevPage blank))
      by (vm_compute; reflexivity).
    rewrite H. reflexivity. }
  rewrite E.
  apply (no_render_without_document PrevPage
           (bindModal CloseClicked Session.reading)).
  vm_compute. reflexivity.
Defined.

(** ** A web result in place of the viewer *)




(** ** There and back *)

(** X15: zooming in and then out, or out and then in, gives the scale back,
    on every scale within reach of 1.0 except at the end of the range in
    the direction of the first step; there the first click changes
    nothing and the second moves a quarter away from the end. *)
Theorem zoom_there_and_back (w : World) :
  In (scale (app w)) zoom_levels ->
  (scale (app w) <> 3.0%float ->
   scale (app (zoom (zoom w Increment) Decrement)) = scale (app w))
  /\ (scale (app w) <> 0.5%float ->
      scale (app (zoom (zoom w Decrement) Increment)) = scale (app w))
  /\ (scale (app w) = 3.0%float ->
      scale (app (zoom (zoom w Increment) Decrement)) = 2.75%float)
  /\ (scale (app w) = 0.5%float ->
      scale (app (zoom (zoom w Decrement) Increment)) = 0.75%float).
Proof.
  intros Hlevel. rewrite !scale_zoom.
  unfold zoom_levels in Hlevel. cbn [In] in Hlevel.
  repeat (destruct Hlevel as [<-|Hlevel];
          [repeat split; intros H;
           first [reflexivity | discriminate H
                 | exfalso; apply H; reflexivity]|]).
  contradiction.
Qed.

Lemma zoom_there_and_back_witness :
  scale (app (zoom (zoom Session.reading Increment) Decrement)) = 1.25%float.
Proof.
  assert (E : scale (app Session.reading) = 1.25%float)
    by (vm_compute; reflexivity).
  assert (Hlevel : In (scale (app Session.reading)) zoom_levels)
    by (rewrite E; unfold zoom_levels; find_level).
  destruct (zoom_there_and_back Session.reading Hlevel) as (H & _).
  rewrite H; [exact E|].
  rewrite E. intros H'. discriminate H'.
Defined.



(** ** Moving drops the selection *)

(** X17: a click that moves to another page, and every click on a zoom
    button, empties the stored selection and hides the selection panel; a
    click on Prev or Next that cannot move keeps the selection. *)
Theorem moving_clears_selection (w : World) (doc : PdfDoc) :
  pdfDoc (app w) = Some doc ->
  (forall a, pageNum (app (turn w a)) <> pageNum (app w) ->
     selectedText (app (turn w a)) = []
     /\ (is_Some (dom w !! "textSelectionDisplay") ->
         selection_display_hidden (turn w a)))
  /\ (forall a, pageNum (app (turn w a)) = pageNum (app w) ->
      selectedText (app (turn w a)) = selectedText (app w))
  /\ (forall z, selectedText (app (zoom w z)) = []
      /\ (is_Some (dom w !! "textSelectionDisplay") ->
          selection_display_hidden (zoom w z))).
Proof.
  intros Hdoc.
  assert (Hclear : forall w0,
             is_Some (dom w0 !! "textSelectionDisplay") ->
             selection_display_hidden (clearPDFSelection w0)).
  { intros w0 [panel Hpanel]. exists (set_display DisplayNone panel).
    split; [|reflexivity]. unfold clearPDFSelection. lookups'.
    rewrite Hpanel. reflexivity. }
  assert (Hrender : forall num w0 id,
             pdfDoc (app w0) = Some doc ->
             dom (renderPageAccurately num w0) !! id = dom w0 !! id).
  { intros num w0 id H0. unfold renderPageAccurately.
    destruct (pageRendering (app w0)); [reflexivity|].
    cbn. rewrite H0. reflexivity. }
  split; [|split].
  - intros a Hmoved.
    rewrite (pageNum_turn w doc a Hdoc) in Hmoved.
    destruct a; cbn [turn].
    + unfold prevBtn_onclick in *.
      destruct (pageNum (app w) <=? 1); [congruence|].
      split; [autorewrite with world; reflexivity|].
      intros Hpanel. apply Hclear.
      rewrite Hrender by (autorewrite with world; exact Hdoc). exact Hpanel.
    + unfold nextBtn_onclick in *. rewrite Hdoc.
      destruct (numPages doc <=? pageNum (app w)); [congruence|].
      cbn [settle].
      split; [autorewrite with world; reflexivity|].
      intros Hpanel. apply Hclear.
      rewrite Hrender by (autorewrite with world; exact Hdoc). exact Hpanel.
  - intros a Hstill.
    rewrite (pageNum_turn w doc a Hdoc) in Hstill.
    destruct a; cbn [turn].
    + unfold prevBtn_onclick in *.
      destruct (pageNum (app w) <=? 1); [rewrite app_toast; reflexivity|lia].
    + unfold nextBtn_onclick in *. rewrite Hdoc.
      destruct (numPages doc <=? pageNum (app w));
        [cbn [settle]; rewrite app_toast; reflexivity|lia].
  - intros z. destruct z; cbn [zoom];
      unfold zoomInBtn_onclick, zoomOutBtn_onclick, zoom_epilogue;
      (split; [autorewrite with world; reflexivity|]);
      intros [panel Hpanel];
      exists (set_display DisplayNone panel); (split; [|reflexivity]);
      unfold clearPDFSelection; lookups';
      rewrite Hrender by (autorewrite with world; exact Hdoc);
      rewrite dom_with_app, Hpanel; reflexivity.
Qed.

Lemma moving_clears_selection_witness :
  selectedText
    (app (turn (selectionSettled (js "attendance") Session.viewing) Forward))
  = []
  /\ selectedText
       (app (turn (selectionSettled (js "attendance") Session.viewing) Back))
     = js "attendance".
Proof.
  pose (w := selectionSettled (js "attendance") Session.viewing).
  assert (Hdoc : pdfDoc (app w) = Some (mkPdfDoc 3)) by (vm_compute; reflexivity).
  destruct (moving_clears_selection w (mkPdfDoc 3) Hdoc) as (Hmove & Hstay & _).
  split.
  - apply (Hmove Forward). vm_compute. discriminate.
  - fold w. rewrite (Hstay Back) by (vm_compute; reflexivity).
    vm_compute. reflexivity.
Defined.

(** ** Follow-up questions *)

Lemma app_selectionSettled (selection : JSString) (w : World) :
  app (selectionSettled selection w)
  = set_selectedText
      (if (5 <? length (trim selection))%nat then trim selection else [])
      (app w)
  /\ requests (selectionSettled selection w) = requests w.
Proof.
  unfold selectionSettled, clearPDFSelection.
  destruct (5 <? length (trim selection))%nat.
  - cbn [dom with_app].
    destruct (dom w !! "textSelectionDisplay"), (dom w !! "selectedTextBox");
      rewrite requests_toast; unfold requests; autorewrite with world;
      rewrite ?List.filter_app, ?app_nil_r; split; reflexivity.
  - rewrite requests_toast. unfold requests. autorewrite with world.
    rewrite List.filter_app, app_nil_r. split; reflexivity.
Qed.

(** X18: once a selection has settled, the Generate button posts to
    [/api/followup] exactly when the trimmed selection is longer than 5
    code units; the request carries the trimmed selection, the document's
    name and the current page number.  Otherwise nothing is posted. *)
Theorem follow_up_posts_settled_selection (selection : JSString) (w : World) :
  let w' := generateFollowUpFromPDF (selectionSettled selection w) in
  requests w'
  = requests w
    ++ (if (5 <? length (trim selection))%nat
        then [follow_up_request (trim selection) (app w)]
        else []).
Proof.
  intros w'. unfold w', generateFollowUpFromPDF.
  destruct (app_selectionSettled selection w) as [Ha Hr]. rewrite Ha.
  destruct (5 <? length (trim selection))%nat eqn:Hlong.
  - cbn [selectedText set_selectedText].
    destruct (trim selection) as [|c t] eqn:Ht; [discriminate Hlong|].
    cbn [truthy negb]. unfold requests, showLoading.
    autorewrite with world. rewrite List.filter_app.
    fold (requests (selectionSettled selection w)). rewrite Hr, Ha.
    reflexivity.
  - cbn. unfold showAlert. rewrite requests_toast, Hr, app_nil_r.
    reflexivity.
Qed.

(** X19: whenever the viewer has closed, and after every click that clears
    the selection, the Generate handler posts nothing: the stored
    selection is empty and the user is asked to select text first. *)
Theorem no_follow_up_without_selection (w w' : World) :
  modal_closes w w' \/ w' = clearPDFSelection w ->
  selectedText (app w') = []
  /\ requests (generateFollowUpFromPDF w') = requests w'
  /\ app (generateFollowUpFromPDF w') = app w'.
Proof.
  intros H.
  assert (Hsel : selectedText (app w') = []).
  { destruct H as [[ev Hev Hopen | q err confirmed] | ->].
    - rewrite (bindModal_closes ev w Hev Hopen), app_closeModal. reflexivity.
    - destruct (app_follow_up q err confirmed w) as [E|E]; rewrite E;
        rewrite app_closeModal; reflexivity.
    - rewrite app_clearPDFSelection. reflexivity. }
  split; [exact Hsel|].
  unfold generateFollowUpFromPDF, showAlert. rewrite Hsel. cbn.
  split; [apply requests_toast|apply app_toast].
Qed.

Lemma no_follow_up_without_selection_witness :
  requests (click "generateQuestionBtn"
              (bindModal CloseClicked
                 (selectionSettled (js "attendance") Session.viewing)))
  = requests (bindModal CloseClicked
                (selectionSettled (js "attendance") Session.viewing)).
Proof.
  pose (w := selectionSettled (js "attendance") Session.viewing).
  assert (Hopen : modal_open w).
  { split; eexists; [split|]; vm_compute; reflexivity. }
  assert (E : click "generateQuestionBtn" (bindModal CloseClicked w)
              = generateFollowUpFromPDF (bindModal CloseClicked w)).
  { unfold click.
    assert (H : dom (bindModal CloseClicked w) !! "generateQuestionBtn"
                = Some (set_onclick GenerateQuestion blank))
      by (vm_compute; reflexivity).
    rewrite H. reflexivity. }
  fold w. rewrite E.
  apply (no_follow_up_without_selection w (bindModal CloseClicked w)).
  left. apply closed_by_listener; [constructor|exact Hopen].
Defined.



(** X21: a follow-up request that fails changes no field of the
    controller, leaves the viewer open and the typed question alone, and
    posts nothing; the overlay is hidden and the user is shown the
    message. *)
Theorem failed_follow_up_keeps_viewer (r : FollowUpResult) (confirmed : bool)
    (w : World) :
  (forall q err, r <> FollowUpResponded true q err) ->
  let w' := generateFollowUp_resume r confirmed w in
  let message := match r with
                 | FollowUpRejected m => m
                 | FollowUpResponded _ _ err => err
                 end in
  app w' = app w
  /\ effects w'
     = effects (showAlert [Lit (js "Failed to generate follow-up question: ");
                           MessageOf (Error message)] error_type w)
  /\ requests w' = requests w
  /\ (forall id, id <> "toasts" -> id <> "loadingOverlay" ->
      dom w' !! id = dom w !! id)
  /\ (forall wrap, dom w !! "toasts" = Some wrap ->
      toasts w'
      = content wrap
        ++ [ToastNode error_type
              [Lit (js "Failed to generate follow-up question: ");
               MessageOf (Error message)]]).
Proof.
  intros Hfail w' message.
  assert (E : w' = showAlert
                     [Lit (js "Failed to generate follow-up question: ");
                      MessageOf (Error message)] error_type (hideLoading w)).
  { unfold w', message. destruct r as [m|[|] q err]; try reflexivity.
    destruct (Hfail q err eq_refl). }
  rewrite E. unfold showAlert, hideLoading.
  split; [autorewrite with world; reflexivity|].
  split; [rewrite !effects_toast; lookups'; autorewrite with world;
          reflexivity|].
  split; [rewrite requests_toast; unfold requests; autorewrite with world;
          reflexivity|].
  split.
  - intros id H1 H2. lookups'; reflexivity.
  - intros wrap Hwrap. unfold toasts. lookups'. rewrite Hwrap. reflexivity.
Qed.

Lemma failed_follow_up_keeps_viewer_witness :
  selectedText
    (app (generateFollowUp_resume (FollowUpRejected (js "Failed to fetch"))
            true (selectionSettled (js "attendance") Session.viewing)))
  = js "attendance".
Proof.
  rewrite (proj1 (failed_follow_up_keeps_viewer
                    (FollowUpRejected (js "Failed to fetch")) true
                    (selectionSettled (js "attendance") Session.viewing)
                    ltac:(discriminate))).
  vm_compute. reflexivity.
Defined.

(** ** The source list, replaced on every answer *)

Lemma docsCard_displaySources (data : QueryResult) (srcs : list Source)
    (w : World) (card : Element) :
  sources data = Some srcs ->
  srcs <> [] ->
  is_Some (dom w !! "documentsContainer") ->
  dom w !! "docsCard" = Some card ->
  dom (displaySources data w) !! "docsCard" = Some (set_hidden false card).
Proof.
  intros Hsrc Hne [container Hcontainer] Hcard.
  unfold displaySources. rewrite Hsrc.
  destruct srcs as [|s rest]; [congruence|].
  rewrite (dom_update_eq _ _ _ _ Hcontainer).
  rewrite dom_update_ne by discriminate. rewrite Hcard.
  rewrite dom_cards_ne by discriminate.
  apply dom_update_eq. rewrite dom_update_ne by discriminate. exact Hcard.
Qed.

(** X1: an answer with sources, on a page that has the source container
    and its card, is displayed without an exception; the card around the
    list is shown, and the list holds one card per source, in the order of
    the response, whatever cards it held before; each card shows the
    relevance of its source as a rounded percentage. *)
Theorem answer_with_sources_lists_each_source (data : QueryResult)
    (a : JSString) (srcs : list Source) (w : World) (docsCard : Element) :
  answer data = Some a ->
  sources data = Some srcs ->
  srcs <> [] ->
  is_Some (dom w !! "documentsContainer") ->
  dom w !! "docsCard" = Some docsCard ->
  exists w', displayResults data w = Normal w'
    /\ dom w' !! "docsCard" = Some (set_hidden false docsCard)
    /\ source_cards w' = map (fun s => CardNode (doc_card s)) srcs
    /\ length (source_cards w') = length srcs
    /\ Forall2 (fun s n => exists card, n = CardNode card
                  /\ card_relevancePercent card
                     = Math_round (relevance s * 100)%float)
               srcs (source_cards w').
Proof.
  intros Hans Hsrc Hne Hcontainer Hcard.
  destruct (displayResults_one_card_per_source data a srcs w Hans Hsrc Hne
              Hcontainer (ex_intro _ docsCard Hcard))
    as (w' & Hret & Hcards & Hlen & Hpercent).
  exists w'. repeat split; try assumption.
  unfold displayResults in Hret.
  remember (update "resultsSection" (set_hidden false) w) as w1 eqn:E1.
  assert (Hc1 : is_Some (dom w1 !! "documentsContainer")).
  { subst w1. rewrite dom_update_ne by discriminate. exact Hcontainer. }
  assert (Hd1 : dom w1 !! "docsCard" = Some docsCard).
  { subst w1. rewrite dom_update_ne by discriminate. exact Hcard. }
  pose proof (dom_displayAnswer_ne data w1 "documentsContainer"
                ltac:(discriminate)) as Hc2.
  pose proof (dom_displayAnswer_ne data w1 "docsCard"
                ltac:(discriminate)) as Hd2.
  destruct (displayAnswer data w1) as [w2|e w2]; [|discriminate Hret].
  cbn [world_of] in Hc2, Hd2. rewrite <- Hc2 in Hc1. rewrite <- Hd2 in Hd1.
  pose proof (docsCard_displaySources data srcs w2 docsCard Hsrc Hne Hc1 Hd1)
    as Hshown.
  destruct (dom (displaySources data w2) !! "resultsSection");
    injection Hret as <-; rewrite ?dom_log; exact Hshown.
Qed.

Lemma answer_with_sources_lists_each_source_witness :
  exists w', displayResults Session.reply Session.answered = Normal w'
             /\ length (source_cards w') = 2%nat.
Proof.
  destruct (answer_with_sources_lists_each_source Session.reply
              (js "75% attendance is required.")
              [Session.handbook; Session.news] Session.answered
              (set_hidden false blank))
    as (w' & Hret & _ & _ & Hlen & _).
  - reflexivity.
  - reflexivity.
  - discriminate.
  - eexists. vm_compute. reflexivity.
  - vm_compute. reflexivity.
  - exists w'. split; assumption.
Defined.

(** X2: an answer without sources empties the source list, whatever it
    held, but does not hide the card around it: the card keeps the
    visibility the previous answer gave it. *)
Theorem answer_without_sources_empties_list (data : QueryResult)
    (a : JSString) (w : World) :
  answer data = Some a ->
  has_sources data = false ->
  is_Some (dom w !! "documentsContainer") ->
  exists w', displayResults data w = Normal w'
    /\ source_cards w' = []
    /\ dom w' !! "docsCard" = dom w !! "docsCard".
Proof.
  intros Hans Hnone [container Hcontainer].
  assert (Hsrc : displaySources data
                 = update "documentsContainer" (set_content [])).
  { unfold displaySources. unfold has_sources in Hnone.
    destruct (sources data) as [[|s rest]|]; [reflexivity|discriminate|].
    reflexivity. }
  assert (Hdone : forall w0,
             dom w0 !! "documentsContainer" = Some container ->
             dom w0 !! "docsCard" = dom w !! "docsCard" ->
             exists w',
               match dom (displaySources data w0) !! "resultsSection" with
               | Some _ => Normal (log (ScrollIntoView "resultsSection")
                                     (displaySources data w0))
               | None => Normal (displaySources data w0)
               end = Normal w'
               /\ source_cards w' = []
               /\ dom w' !! "docsCard" = dom w !! "docsCard").
  { intros w0 Hc Hd. rewrite Hsrc.
    destruct (dom _ !! "resultsSection"); eexists;
      (split; [reflexivity|]); unfold source_cards;
      rewrite ?dom_log, (dom_update_eq _ _ _ _ Hc),
        dom_update_ne by discriminate; (split; [reflexivity|exact Hd]). }
  unfold displayResults, displayAnswer. rewrite Hans, Hnone.
  destruct (dom (update "resultsSection" (set_hidden false) w)
              !! "answerContent") eqn:Hpane.
  - destruct (includes a WEB_SEARCH_MARKER); apply Hdone; lookups';
      assumption || reflexivity.
  - apply Hdone; lookups'; assumption || reflexivity.
Qed.

Lemma answer_without_sources_empties_list_witness :
  exists w',
    displayResults
      (mkQueryResult (Some (js "I do not know.")) None (Some []) None None)
      Session.answered = Normal w'
    /\ source_cards w' = []
    /\ dom w' !! "docsCard" = Some blank.
Proof.
  destruct (answer_without_sources_empties_list
              (mkQueryResult (Some (js "I do not know.")) None (Some [])
                             None None)
              (js "I do not know.") Session.answered)
    as (w' & Hret & Hcards & Hcard).
  - reflexivity.
  - reflexivity.
  - eexists. vm_compute. reflexivity.
  - exists w'. split; [exact Hret|]. split; [exact Hcards|].
    rewrite Hcard. vm_compute. reflexivity.
Defined.

(** ** The markup of an answer *)

Example formatText_bold_and_breaks :
  formatText (js "**Fees**: 100" ++ [10%N] ++ js "per term")
  = js "<strong>Fees</strong>: 100<br>per term".
Proof. vm_compute. reflexivity. Qed.

Example formatText_lazy_stars :
  formatText (js "***a** b** c") = js "<strong>*a</strong> b** c".
Proof. vm_compute. reflexivity. Qed.

Example formatText_stars_across_lines :
  formatText (js "**a" ++ [10%N] ++ js "b**") = js "**a<br>b**".
Proof. vm_compute. reflexivity. Qed.

Example formatText_list_after_text :
  formatText (js "Bring:" ++ [10%N] ++ js "- pen" ++ [10%N] ++ js "- paper")
  = js "Bring:<br>- pen<br>- paper".
Proof. vm_compute. reflexivity. Qed.

Example formatText_list_with_carriage_returns :
  formatText (js "- pen" ++ [13%N; 10%N] ++ js "- paper")
  = js "<ul><li>pen</li></ul>" ++ [13%N] ++ js "<br>- paper".
Proof. vm_compute. reflexivity. Qed.

Lemma plain_facts (c : N) :
  is_plain c = true ->
  N.eqb c 42 = false /\ is_line_terminator c = false /\ N.eqb c 60 = false
  /\ N.eqb c 10 = false.
Proof.
  unfold is_plain, is_line_terminator.
  destruct (N.eqb c 42), (N.eqb c 10), (N.eqb c 13), (N.eqb c 8232),
    (N.eqb c 8233), (N.eqb c 60); cbn; intros H;
    try discriminate H; repeat split.
Qed.

(** *** Each replacement on text it has no use for *)

Lemma strong_plain (inside : bool) (s : JSString) :
  forallb is_plain s = true -> strong inside s = s.
Proof.
  induction s as [|c s IH]; [reflexivity|].
  cbn [forallb]. intros H. apply andb_prop in H as [Hc Hs].
  destruct (plain_facts c Hc) as (Hstar & _).
  cbn [strong]. destruct s as [|d rest]; [reflexivity|].
  rewrite Hstar. cbn [andb]. rewrite (IH Hs). reflexivity.
Qed.

Lemma line_breaks_app (s t : JSString) :
  line_breaks (s ++ t) = line_breaks s ++ line_breaks t.
Proof.
  induction s as [|c s IH]; [reflexivity|].
  change (line_breaks ((c :: s) ++ t))
    with ((if N.eqb c 10 then js "<br>" else [c]) ++ line_breaks (s ++ t)).
  change (line_breaks (c :: s))
    with ((if N.eqb c 10 then js "<br>" else [c]) ++ line_breaks s).
  rewrite IH, app_assoc. reflexivity.
Qed.

Lemma line_breaks_plain (s : JSString) :
  forallb is_plain s = true -> line_breaks s = s.
Proof.
  induction s as [|c s IH]; [reflexivity|].
  cbn [forallb]. intros H. apply andb_prop in H as [Hc Hs].
  destruct (plain_facts c Hc) as (_ & _ & _ & Hlf).
  cbn [line_breaks]. rewrite Hlf, (IH Hs). reflexivity.
Qed.

(** Inside a line no place makes a difference until the line ends. *)
Lemma list_items_line (s t : JSString) :
  forallb (fun c => negb (is_line_terminator c)) s = true ->
  list_items InLine (s ++ t) = s ++ list_items InLine t
  /\ list_items InItem (s ++ t) = s ++ list_items InItem t.
Proof.
  induction s as [|c s IH]; [split; reflexivity|].
  cbn [forallb]. intros H. apply andb_prop in H as [Hc Hs].
  apply negb_true_iff in Hc. destruct (IH Hs) as [IH1 IH2].
  rewrite <- !app_comm_cons. cbn [list_items].
  rewrite Hc, IH1, IH2. split; reflexivity.
Qed.

Lemma list_items_whole_line (s : JSString) :
  forallb (fun c => negb (is_line_terminator c)) s = true ->
  list_items InLine s = s /\ list_items InItem s = s ++ js "</li>".
Proof.
  intros H. destruct (list_items_line s [] H) as [E1 E2].
  rewrite app_nil_r in E1, E2. rewrite E1, E2. cbn [list_items].
  rewrite app_nil_r. split; reflexivity.
Qed.

Lemma plain_no_terminator (s : JSString) :
  forallb is_plain s = true ->
  forallb (fun c => negb (is_line_terminator c)) s = true.
Proof.
  induction s as [|c s IH]; [reflexivity|].
  cbn [forallb]. intros H. apply andb_prop in H as [Hc Hs].
  destruct (plain_facts c Hc) as (_ & Hlt & _).
  rewrite Hlt, (IH Hs). reflexivity.
Qed.

Lemma split_first_item_skip (c : N) (s : JSString) :
  N.eqb c 60 = false ->
  split_first (js "<li>") (c :: s)
  = match split_first (js "<li>") s with
    | Some (before, after) => Some (c :: before, after)
    | None => None
    end.
Proof.
  intros Hc. cbn [split_first]. cbn [startsWith js].
  change (N_of_ascii "<") with 60%N. rewrite N.eqb_sym, Hc. reflexivity.
Qed.

Lemma split_first_item_plain (s t : JSString) :
  forallb is_plain s = true ->
  split_first (js "<li>") (s ++ t)
  = match split_first (js "<li>") t with
    | Some (before, after) => Some (s ++ before, after)
    | None => None
    end.
Proof.
  induction s as [|c s IH].
  - intros _. rewrite app_nil_l.
    destruct (split_first (js "<li>") t) as [[b a]|]; reflexivity.
  - cbn [forallb]. intros H. apply andb_prop in H as [Hc Hs].
    destruct (plain_facts c Hc) as (_ & _ & Hlt & _).
    rewrite <- app_comm_cons, (split_first_item_skip c _ Hlt), (IH Hs).
    destruct (split_first (js "<li>") t) as [[b a]|]; reflexivity.
Qed.

Lemma split_last_item_end (s : JSString) :
  split_last (js "</li>") (s ++ js "</li>") = Some (s, []).
Proof.
  induction s as [|c s IH]; [vm_compute; reflexivity|].
  rewrite <- app_comm_cons. cbn [split_last]. rewrite IH. reflexivity.
Qed.

(** X22: text without stars, line terminators and opening angle brackets
    that does not start with a dash and a space comes back from
    [formatText] as it went in. *)
Theorem formatText_plain (t : JSString) :
  forallb is_plain t = true ->
  startsWith t (js "- ") = false ->
  formatText t = t.
Proof.
  intros Hplain Hdash. unfold formatText.
  rewrite (strong_plain false t Hplain), (line_breaks_plain t Hplain).
  assert (Hitems : list_items LineStart t = t).
  { destruct t as [|c s]; [reflexivity|].
    cbn [forallb] in Hplain. apply andb_prop in Hplain as [Hc Hs].
    destruct (plain_facts c Hc) as (_ & Hlt & _).
    cbn [list_items]. rewrite Hlt.
    assert (Hno : (N.eqb c 45 && item_follows s)%bool = false).
    { destruct (N.eqb_spec c 45) as [->|]; [|reflexivity].
      cbn [andb]. destruct s as [|d [|e s]]; try reflexivity.
      cbn [item_follows]. cbn in Hdash.
      destruct (N.eqb_spec d 32) as [->|]; [|reflexivity].
      cbn in Hdash. discriminate Hdash. }
    rewrite Hno.
    destruct (list_items_whole_line s (plain_no_terminator s Hs)) as [E _].
    rewrite E. reflexivity. }
  rewrite Hitems. unfold list_wrap.
  pose proof (split_first_item_plain t [] Hplain) as E.
  rewrite app_nil_r in E. rewrite E. reflexivity.
Qed.

Lemma formatText_plain_witness :
  formatText (js "75% attendance is required.")
  = js "75% attendance is required.".
Proof. apply formatText_plain; vm_compute; reflexivity. Defined.

(** *** Bold text *)

Lemma strong_skip (inside : bool) (c : N) (s : JSString) :
  N.eqb c 42 = false -> strong inside (c :: s) = c :: strong inside s.
Proof.
  intros Hc. destruct s as [|d rest]; [reflexivity|].
  cbn [strong]. rewrite Hc. reflexivity.
Qed.

Lemma strong_app_plain (inside : bool) (p s : JSString) :
  forallb is_plain p = true -> strong inside (p ++ s) = p ++ strong inside s.
Proof.
  induction p as [|c p IH]; [reflexivity|].
  cbn [forallb]. intros H. apply andb_prop in H as [Hc Hp].
  destruct (plain_facts c Hc) as (Hstar & _).
  rewrite <- !app_comm_cons, (strong_skip inside c _ Hstar), (IH Hp).
  reflexivity.
Qed.

Lemma closing_stars_skip (c : N) (s : JSString) :
  N.eqb c 42 = false ->
  closing_stars (c :: s) = (negb (is_line_terminator c) && closing_stars s)%bool.
Proof.
  intros Hc. destruct s as [|d rest].
  - cbn. rewrite andb_false_r. reflexivity.
  - cbn [closing_stars]. rewrite Hc. reflexivity.
Qed.

Lemma closing_stars_plain (x q : JSString) :
  forallb is_plain x = true -> closing_stars (x ++ 42%N :: 42%N :: q) = true.
Proof.
  induction x as [|c x IH]; [reflexivity|].
  cbn [forallb]. intros H. apply andb_prop in H as [Hc Hx].
  destruct (plain_facts c Hc) as (Hstar & Hlt & _).
  rewrite <- app_comm_cons, (closing_stars_skip c _ Hstar), Hlt, (IH Hx).
  reflexivity.
Qed.

Lemma strong_bold (p x q : JSString) :
  forallb is_plain p = true ->
  forallb is_plain x = true ->
  forallb is_plain q = true ->
  strong false (p ++ js "**" ++ x ++ js "**" ++ q)
  = p ++ js "<strong>" ++ x ++ js "</strong>" ++ q.
Proof.
  intros Hp Hx Hq. rewrite (strong_app_plain false p _ Hp). f_equal.
  change (js "**" ++ x ++ js "**" ++ q)
    with (42%N :: 42%N :: (x ++ 42%N :: 42%N :: q)).
  cbn [strong]. cbn [N.eqb Pos.eqb andb].
  rewrite (closing_stars_plain x q Hx), (strong_app_plain true x _ Hx).
  cbn [strong]. cbn [N.eqb Pos.eqb andb].
  rewrite (strong_plain false q Hq). reflexivity.
Qed.

Lemma split_first_item_bracket (d : N) (s : JSString) :
  N.eqb d 108 = false ->
  split_first (js "<li>") (60%N :: d :: s)
  = match split_first (js "<li>") (d :: s) with
    | Some (before, after) => Some (60%N :: before, after)
    | None => None
    end.
Proof.
  intros Hd. cbn [split_first]. cbn [startsWith js].
  change (N_of_ascii "l") with 108%N. change (N_of_ascii "<") with 60%N.
  rewrite N.eqb_refl, N.eqb_sym, Hd. reflexivity.
Qed.

(** Steps over characters, given one by one, that cannot start [<li>]. *)
Ltac skip_markup :=
  repeat first [rewrite split_first_item_bracket by reflexivity
               |rewrite split_first_item_skip by reflexivity].

Lemma no_terminator_app (s t : JSString) :
  forallb (fun c => negb (is_line_terminator c)) (s ++ t)
  = (forallb (fun c => negb (is_line_terminator c)) s
     && forallb (fun c => negb (is_line_terminator c)) t)%bool.
Proof. apply forallb_app. Qed.

Lemma startsWith_app_long (s t prefix : JSString) :
  (length prefix <= length s)%nat ->
  startsWith (s ++ t) prefix = startsWith s prefix.
Proof.
  revert s. induction prefix as [|a prefix IH]; intros s Hlen.
  - destruct s; [destruct t|]; reflexivity.
  - destruct s as [|c s]; [cbn in Hlen; lia|].
    cbn [length] in Hlen. rewrite <- app_comm_cons. cbn [startsWith].
    rewrite IH by lia. reflexivity.
Qed.

Lemma list_items_no_item (u : JSString) :
  forallb (fun c => negb (is_line_terminator c)) u = true ->
  startsWith u (js "- ") = false ->
  list_items LineStart u = u.
Proof.
  intros Hline Hdash. destruct u as [|c s]; [reflexivity|].
  cbn [forallb] in Hline. apply andb_prop in Hline as [Hc Hs].
  apply negb_true_iff in Hc. cbn [list_items]. rewrite Hc.
  assert (Hno : (N.eqb c 45 && item_follows s)%bool = false).
  { destruct (N.eqb_spec c 45) as [->|]; [|reflexivity].
    cbn [andb]. destruct s as [|d [|e s]]; try reflexivity.
    cbn [item_follows]. cbn in Hdash.
    destruct (N.eqb_spec d 32) as [->|]; [|reflexivity].
    cbn in Hdash. discriminate Hdash. }
  rewrite Hno. destruct (list_items_whole_line s Hs) as [E _].
  rewrite E. reflexivity.
Qed.

(** X23: in text that is otherwise plain, a run between two pairs of
    stars becomes [<strong>...</strong>], and nothing else changes. *)
Theorem formatText_bold (p x q : JSString) :
  forallb is_plain p = true ->
  forallb is_plain x = true ->
  forallb is_plain q = true ->
  startsWith p (js "- ") = false ->
  formatText (p ++ js "**" ++ x ++ js "**" ++ q)
  = p ++ js "<strong>" ++ x ++ js "</strong>" ++ q.
Proof.
  intros Hp Hx Hq Hdash. unfold formatText.
  rewrite (strong_bold p x q Hp Hx Hq).
  set (open := js "<strong>"). set (close := js "</strong>").
  assert (Hbreaks : line_breaks (p ++ open ++ x ++ close ++ q)
                    = p ++ open ++ x ++ close ++ q).
  { rewrite !line_breaks_app, (line_breaks_plain p Hp),
      (line_breaks_plain x Hx), (line_breaks_plain q Hq). reflexivity. }
  rewrite Hbreaks.
  assert (Hitems : list_items LineStart (p ++ open ++ x ++ close ++ q)
                   = p ++ open ++ x ++ close ++ q).
  { apply list_items_no_item.
    - rewrite !no_terminator_app, (plain_no_terminator p Hp),
        (plain_no_terminator x Hx), (plain_no_terminator q Hq). reflexivity.
    - destruct p as [|c [|d p]]; [reflexivity| |].
      + cbn. destruct (N.eqb _ c); reflexivity.
      + rewrite startsWith_app_long; [exact Hdash|]. cbn. lia. }
  rewrite Hitems. unfold list_wrap.
  assert (Hnone : split_first (js "<li>") (p ++ open ++ x ++ close ++ q) = None).
  { rewrite (split_first_item_plain p _ Hp).
    assert (Hq' : split_first (js "<li>") q = None).
    { pose proof (split_first_item_plain q [] Hq) as E.
      rewrite app_nil_r in E. exact E. }
    assert (Hclose : split_first (js "<li>") (close ++ q) = None).
    { change (close ++ q)
        with (60 :: 47 :: 115 :: 116 :: 114 :: 111 :: 110 :: 103 :: 62 :: q)%N.
      skip_markup. rewrite Hq'. reflexivity. }
    assert (Hx' : split_first (js "<li>") (x ++ close ++ q) = None).
    { rewrite (split_first_item_plain x _ Hx), Hclose. reflexivity. }
    change (open ++ x ++ close ++ q)
      with (60 :: 115 :: 116 :: 114 :: 111 :: 110 :: 103 :: 62
               :: (x ++ close ++ q))%N.
    skip_markup. rewrite Hx'. reflexivity. }
  rewrite Hnone. reflexivity.
Qed.

Lemma formatText_bold_witness :
  formatText (js "Fees: **100** per term")
  = js "Fees: <strong>100</strong> per term".
Proof.
  apply (formatText_bold (js "Fees: ") (js "100") (js " per term"));
    vm_compute; reflexivity.
Defined.

(** *** Lists *)

Lemma split_first_item_here (s : JSString) :
  split_first (js "<li>") (js "<li>" ++ s) = Some ([], s).
Proof. destruct s; reflexivity. Qed.

(** X24: [formatText] replaces the line feeds before it looks for list
    items, so that the items of a list written one per line are no lines
    any more: a text that starts with an item gets one item holding all
    that follows, line breaks and dashes included. *)
Theorem formatText_list_is_one_item (a b : JSString) :
  forallb is_plain a = true ->
  forallb is_plain b = true ->
  formatText (js "- " ++ a ++ [10%N] ++ js "- " ++ b)
  = js "<ul><li>" ++ a ++ js "<br>- " ++ b ++ js "</li></ul>".
Proof.
  intros Ha Hb. unfold formatText.
  assert (Hplain : forallb (fun c => negb (N.eqb c 42))
                     (js "- " ++ a ++ [10%N] ++ js "- " ++ b) = true).
  { rewrite !forallb_app. cbn.
    assert (H : forall s, forallb is_plain s = true ->
                          forallb (fun c => negb (N.eqb c 42)) s = true).
    { induction s as [|c s IH]; [reflexivity|]. cbn [forallb]. intros H.
      apply andb_prop in H as [Hc Hs].
      destruct (plain_facts c Hc) as (-> & _). rewrite (IH Hs). reflexivity. }
    rewrite (H a Ha), (H b Hb). reflexivity. }
  assert (Hstrong : forall s, forallb (fun c => negb (N.eqb c 42)) s = true ->
                              strong false s = s).
  { induction s as [|c s IH]; [reflexivity|]. cbn [forallb]. intros H.
    apply andb_prop in H as [Hc Hs]. apply negb_true_iff in Hc.
    cbn [strong]. destruct s as [|d rest]; [reflexivity|].
    rewrite Hc. cbn [andb]. rewrite (IH Hs). reflexivity. }
  rewrite (Hstrong _ Hplain).
  rewrite !line_breaks_app, (line_breaks_plain a Ha), (line_breaks_plain b Hb).
  change (line_breaks (js "- ")) with (js "- ").
  change (line_breaks [10%N]) with (js "<br>").
  set (r := a ++ js "<br>" ++ js "- " ++ b).
  assert (Hr : forallb (fun c => negb (is_line_terminator c)) r = true).
  { unfold r. rewrite !no_terminator_app, (plain_no_terminator a Ha),
      (plain_no_terminator b Hb). reflexivity. }
  assert (Hhead : exists e r', r = e :: r' /\ is_line_terminator e = false).
  { unfold r in *. destruct a as [|e a'].
    - eexists _, _. split; reflexivity.
    - exists e, (a' ++ js "<br>" ++ js "- " ++ b). split; [reflexivity|].
      cbn [forallb] in Ha. apply andb_prop in Ha as [He _].
      apply (plain_facts e He). }
  destruct Hhead as (e & r' & Er & He).
  assert (Hitems : list_items LineStart (js "- " ++ r)
                   = js "<li>" ++ r ++ js "</li>").
  { destruct (list_items_whole_line r Hr) as [_ E]. rewrite <- E, Er.
    change (js "- " ++ e :: r') with (45 :: 32 :: e :: r')%N.
    cbn [list_items is_line_terminator N.eqb Pos.eqb orb item_follows andb].
    rewrite He. reflexivity. }
  rewrite Hitems. unfold list_wrap.
  rewrite split_first_item_here, split_last_item_end. unfold r.
  rewrite app_nil_l, app_nil_r, <- !app_assoc. reflexivity.
Qed.

Lemma formatText_list_is_one_item_witness :
  formatText (js "- pen" ++ [10%N] ++ js "- paper")
  = js "<ul><li>pen<br>- paper</li></ul>".
Proof.
  apply (formatText_list_is_one_item (js "pen") (js "paper"));
    vm_compute; reflexivity.
Defined.

(** *** Line feeds *)

Lemma startsWith_drop (prefix s : JSString) :
  startsWith s prefix = true -> s = prefix ++ drop (length prefix) s.
Proof.
  revert s. induction prefix as [|a prefix IH]; intros s H.
  - destruct s; reflexivity.
  - destruct s as [|c s]; [discriminate H|].
    cbn [startsWith] in H. apply andb_prop in H as [Hc Hs].
    apply N.eqb_eq in Hc. subst c.
    rewrite <- app_comm_cons. cbn [length drop]. f_equal. apply IH, Hs.
Qed.

Lemma split_first_parts (needle s before after : JSString) :
  split_first needle s = Some (before, after) ->
  s = before ++ needle ++ after.
Proof.
  revert before after. induction s as [|c s IH]; intros before after H.
  - cbn [split_first] in H.
    destruct (startsWith [] needle) eqn:E; [|discriminate H].
    injection H as <- <-. apply (startsWith_drop needle [] E).
  - cbn [split_first] in H.
    destruct (startsWith (c :: s) needle) eqn:E.
    + injection H as <- <-. apply (startsWith_drop needle (c :: s) E).
    + destruct (split_first needle s) as [[b a]|]; [|discriminate H].
      injection H as <- <-. rewrite (IH b a eq_refl). reflexivity.
Qed.

Lemma split_last_parts (needle s before after : JSString) :
  split_last needle s = Some (before, after) ->
  s = before ++ needle ++ after.
Proof.
  revert before after. induction s as [|c s IH]; intros before after H.
  - discriminate H.
  - cbn [split_last] in H.
    destruct (split_last needle s) as [[b a]|].
    + injection H as <- <-. rewrite (IH b a eq_refl). reflexivity.
    + destruct (startsWith (c :: s) needle) eqn:E; [|discriminate H].
      injection H as <- <-. apply (startsWith_drop needle (c :: s) E).
Qed.

Lemma no_line_feed_app (s t : JSString) :
  no_line_feed (s ++ t) = (no_line_feed s && no_line_feed t)%bool.
Proof. apply forallb_app. Qed.

Lemma line_breaks_no_line_feed (s : JSString) :
  no_line_feed (line_breaks s) = true.
Proof.
  induction s as [|c s IH]; [reflexivity|].
  cbn [line_breaks]. rewrite no_line_feed_app, IH, andb_true_r.
  destruct (N.eqb c 10) eqn:E; [reflexivity|].
  unfold no_line_feed. cbn [forallb]. rewrite E. reflexivity.
Qed.

Lemma list_items_no_line_feed (s : JSString) :
  no_line_feed s = true ->
  forall p, no_line_feed (list_items p s) = true.
Proof.
  induction s as [|c s IH]; intros H p.
  - destruct p; reflexivity.
  - unfold no_line_feed in H. cbn [forallb] in H.
    apply andb_prop in H as [Hc Hs]. fold (no_line_feed s) in Hs.
    assert (Hcons : forall t, no_line_feed t = true ->
                              no_line_feed (c :: t) = true).
    { intros t Ht. unfold no_line_feed in *. cbn [forallb].
      rewrite Hc, Ht. reflexivity. }
    destruct p; cbn [list_items].
    + destruct (is_line_terminator c); [apply Hcons, IH, Hs|].
      destruct (N.eqb c 45 && item_follows s)%bool.
      * rewrite no_line_feed_app, (IH Hs AfterDash). reflexivity.
      * apply Hcons, IH, Hs.
    + destruct (is_line_terminator c); apply Hcons, IH, Hs.
    + apply IH, Hs.
    + destruct (is_line_terminator c); [|apply Hcons, IH, Hs].
      rewrite no_line_feed_app, (Hcons _ (IH Hs LineStart)). reflexivity.
Qed.

Lemma list_wrap_no_line_feed (s : JSString) :
  no_line_feed s = true -> no_line_feed (list_wrap s) = true.
Proof.
  intros H. unfold list_wrap.
  destruct (split_first (js "<li>") s) as [[before after]|] eqn:E1; [|exact H].
  destruct (split_last (js "</li>") after) as [[items rest]|] eqn:E2;
    [|exact H].
  apply split_first_parts in E1. apply split_last_parts in E2.
  rewrite E1, E2, !no_line_feed_app in H.
  apply andb_prop in H as [Hb H]. apply andb_prop in H as [_ H].
  apply andb_prop in H as [Hi H]. apply andb_prop in H as [_ Hr].
  rewrite !no_line_feed_app, Hb, Hi, Hr. reflexivity.
Qed.

(** X25: whatever the text, the markup [formatText] makes of it holds no
    line feed: each one has become a [<br>], and no later replacement
    brings one back. *)
Theorem formatText_no_line_feed (t : JSString) :
  no_line_feed (formatText t) = true.
Proof.
  unfold formatText.
  apply list_wrap_no_line_feed, list_items_no_line_feed,
    line_breaks_no_line_feed.
Qed.
